(** * Monitor-Manager: the monitor-state core of [monitor_manager.py] and [main.py]

    The repository ships the same core twice: a console script
    ([monitor_manager.py], function [main]) and a tray application
    ([main.py], class [MonitorThread]).  Both talk to the Windows display
    API through ctypes.  This development embeds the two programs over an
    abstract operating system and states the properties of the
    specification about them.

    Modelling conventions.
    - The operating system is a type class [OS] over a type [W] of worlds.
      Queries ([EnumDisplayDevicesW], [EnumDisplaySettingsW],
      [psutil.process_iter]) read the world; [ChangeDisplaySettingsExW] and
      [time.sleep] return a new world: whatever the environment does (a
      display plugged in, the watched process starting) happens there.
    - [print] and [status_changed.emit] are recorded in the event trace with
      a message constructor per distinct text.
    - The programs are functions in a writer-and-state monad [M]: the state
      is the world together with the module-level dict [monitor_settings].
    - The polling loops do not terminate; they are unrolled over a finite
      list of presence samples, and the shutdown path ([KeyboardInterrupt]
      handler, [MonitorThread.stop]) is a separate function that can be run
      from any state.  An interrupt in the middle of a round, and [stop]
      racing with the worker thread, are outside the model.
    - [ChangeDisplaySettingsExW] reads the structure passed by reference
      and does not write to it, so a stored [DEVMODE] is a value. *)

From Stdlib Require Import ZArith QArith Ascii String Sorted.
From stdpp Require Import gmap strings list fin_maps.

Local Open Scope Z_scope.
Local Open Scope string_scope.
Local Open Scope list_scope.

(** ** Constants (identical in both files) *)

Definition ENUM_CURRENT_SETTINGS : Z := -1.
Definition CDS_UPDATEREGISTRY : Z := 0x01.
Definition DISP_CHANGE_SUCCESSFUL : Z := 0.
Definition DMDO_DEFAULT : Z := 0.
Definition DMDO_90 : Z := 1.
Definition DMDO_180 : Z := 2.
Definition DMDO_270 : Z := 3.
Definition DM_PELSWIDTH : Z := 0x80000.
Definition DM_PELSHEIGHT : Z := 0x100000.
Definition DM_DISPLAYORIENTATION : Z := 0x00000080.
Definition DM_POSITION : Z := 0x00000020.

(** ** The ctypes structures *)

(** [class DEVMODE(ctypes.Structure)]: every field of [_fields_], in order.
    Integer fields are [Z]; the two [c_wchar * 32] arrays are strings. *)
Record DEVMODE := mkDEVMODE {
  dmDeviceName : string;
  dmSpecVersion : Z;
  dmDriverVersion : Z;
  dmSize : Z;
  dmDriverExtra : Z;
  dmFields : Z;
  dmPositionX : Z;
  dmPositionY : Z;
  dmDisplayOrientation : Z;
  dmDisplayFixedOutput : Z;
  dmColor : Z;
  dmDuplex : Z;
  dmYResolution : Z;
  dmTTOption : Z;
  dmCollate : Z;
  dmFormName : string;
  dmLogPixels : Z;
  dmBitsPerPel : Z;
  dmPelsWidth : Z;
  dmPelsHeight : Z;
  dmDisplayFlags : Z;
  dmDisplayFrequency : Z;
  dmICMMethod : Z;
  dmICMIntent : Z;
  dmMediaType : Z;
  dmDitherType : Z;
  dmReserved1 : Z;
  dmReserved2 : Z;
  dmPanningWidth : Z;
  dmPanningHeight : Z
}.

(** [ctypes.sizeof(DEVMODE)] for the layout above with 2-byte [c_wchar] and
    4-byte [c_ulong] (Windows): 64 + 4*2 + 4 + 2*4 + 2*4 + 5*2 + 64 + 2 +
    13*4. *)
Definition sizeof_DEVMODE : Z := 220.

(** [DEVMODE()]: ctypes zero-initialises a fresh structure. *)
Definition DEVMODE_new : DEVMODE :=
  mkDEVMODE EmptyString 0 0 0 0 0 0 0 0 0 0 0 0 0 0 EmptyString 0 0 0 0 0 0 0 0 0 0 0 0 0 0.

Definition set_dmSize (v : Z) (d : DEVMODE) : DEVMODE :=
  mkDEVMODE (dmDeviceName d) (dmSpecVersion d) (dmDriverVersion d) v
    (dmDriverExtra d) (dmFields d) (dmPositionX d) (dmPositionY d)
    (dmDisplayOrientation d) (dmDisplayFixedOutput d) (dmColor d) (dmDuplex d)
    (dmYResolution d) (dmTTOption d) (dmCollate d) (dmFormName d)
    (dmLogPixels d) (dmBitsPerPel d) (dmPelsWidth d) (dmPelsHeight d)
    (dmDisplayFlags d) (dmDisplayFrequency d) (dmICMMethod d) (dmICMIntent d)
    (dmMediaType d) (dmDitherType d) (dmReserved1 d) (dmReserved2 d)
    (dmPanningWidth d) (dmPanningHeight d).

Definition set_dmFields (v : Z) (d : DEVMODE) : DEVMODE :=
  mkDEVMODE (dmDeviceName d) (dmSpecVersion d) (dmDriverVersion d) (dmSize d)
    (dmDriverExtra d) v (dmPositionX d) (dmPositionY d)
    (dmDisplayOrientation d) (dmDisplayFixedOutput d) (dmColor d) (dmDuplex d)
    (dmYResolution d) (dmTTOption d) (dmCollate d) (dmFormName d)
    (dmLogPixels d) (dmBitsPerPel d) (dmPelsWidth d) (dmPelsHeight d)
    (dmDisplayFlags d) (dmDisplayFrequency d) (dmICMMethod d) (dmICMIntent d)
    (dmMediaType d) (dmDitherType d) (dmReserved1 d) (dmReserved2 d)
    (dmPanningWidth d) (dmPanningHeight d).

Definition set_dmPelsWidth (v : Z) (d : DEVMODE) : DEVMODE :=
  mkDEVMODE (dmDeviceName d) (dmSpecVersion d) (dmDriverVersion d) (dmSize d)
    (dmDriverExtra d) (dmFields d) (dmPositionX d) (dmPositionY d)
    (dmDisplayOrientation d) (dmDisplayFixedOutput d) (dmColor d) (dmDuplex d)
    (dmYResolution d) (dmTTOption d) (dmCollate d) (dmFormName d)
    (dmLogPixels d) (dmBitsPerPel d) v (dmPelsHeight d)
    (dmDisplayFlags d) (dmDisplayFrequency d) (dmICMMethod d) (dmICMIntent d)
    (dmMediaType d) (dmDitherType d) (dmReserved1 d) (dmReserved2 d)
    (dmPanningWidth d) (dmPanningHeight d).

Definition set_dmPelsHeight (v : Z) (d : DEVMODE) : DEVMODE :=
  mkDEVMODE (dmDeviceName d) (dmSpecVersion d) (dmDriverVersion d) (dmSize d)
    (dmDriverExtra d) (dmFields d) (dmPositionX d) (dmPositionY d)
    (dmDisplayOrientation d) (dmDisplayFixedOutput d) (dmColor d) (dmDuplex d)
    (dmYResolution d) (dmTTOption d) (dmCollate d) (dmFormName d)
    (dmLogPixels d) (dmBitsPerPel d) (dmPelsWidth d) v
    (dmDisplayFlags d) (dmDisplayFrequency d) (dmICMMethod d) (dmICMIntent d)
    (dmMediaType d) (dmDitherType d) (dmReserved1 d) (dmReserved2 d)
    (dmPanningWidth d) (dmPanningHeight d).

(** [class DISPLAY_DEVICE(ctypes.Structure)]. *)
Record DISPLAY_DEVICE := mkDISPLAY_DEVICE {
  cb : Z;
  DeviceName : string;
  DeviceString : string;
  StateFlags : Z;
  DeviceID : string;
  DeviceKey : string
}.

(** The dict that [get_all_monitors] appends for each usable display. *)
Record monitor := mkMonitor {
  index : nat;
  name : string;
  description : string;
  settings : DEVMODE;
  is_primary : bool
}.

(** ** The operating system *)

Class OS (W : Type) := {
  (** the device table: [EnumDisplayDevicesW(None, i, &device, 0)] fills
      [device] with entry [i] and returns non-zero while [i] is in range *)
  display_devices : W -> list DISPLAY_DEVICE;
  (** [EnumDisplaySettingsW(name, ENUM_CURRENT_SETTINGS, &devmode)]:
      the mode written into [devmode], or [None] when the call returns 0 *)
  display_settings : W -> string -> option DEVMODE;
  (** [ChangeDisplaySettingsExW(name, &devmode, None, dwflags, None)]:
      the return code and the world after the call *)
  change_display_settings : W -> string -> DEVMODE -> Z -> Z * W;
  (** [psutil.process_iter(['name', 'exe'])]: [proc.info['exe']] of every
      process, [None] where the executable cannot be read *)
  process_exes : W -> list (option string);
  (** the world after [time.sleep(seconds)] *)
  after_sleep : W -> Q -> W;
  (** [str.lower] *)
  lower : string -> string
}.

Definition EnumDisplayDevices `{OS W} (w : W) (i : nat) : option DISPLAY_DEVICE :=
  display_devices w !! i.

Definition EnumDisplaySettings `{OS W} (w : W) (device_name : string) (mode_num : Z)
  : option DEVMODE :=
  display_settings w device_name.

(** ** Events and the monad *)

(** Texts printed by [monitor_manager.py]. *)
Inductive console_msg :=
| SavedSettings (n : nat)          (* "Saved settings for {n} monitors" *)
| Banner (line : nat)              (* the four banner lines of [main] *)
| FoundMonitors (n : nat)          (* "Found {n} monitor(s):" *)
| MonitorLine (i : nat) (desc : string) (primary : bool)
                                   (* "  Monitor {i}: {desc} ({role})" *)
| BlankLine
| NoSecondaryWarning               (* "Warning: No secondary monitors detected..." *)
| ContinuingAnyway                 (* "Continuing anyway...\n" *)
| LoLDetected                      (* "[HH:MM:SS] League of Legends detected!" *)
| WarnDisableSoon                  (* "WARNING: Secondary monitors will be disabled in 5 seconds..." *)
| WarnMoveApps                     (* "    Move Discord/apps to MAIN Monitor NOW!" *)
| Countdown (i : nat)              (* "    {i}..." *)
| DisablingSecondary               (* "\nDisabling secondary monitors..." *)
| AttemptDisable (desc : string)   (* "  Attempting to disable: {desc}" *)
| DisableOk (desc : string)        (* "  Successfully disabled {desc}" *)
| DisableFailed (desc : string)    (* "  Failed to disable {desc}" *)
| RetryOk                          (* "  Retry successful" *)
| DisablingComplete                (* "Monitor disabling complete!\n" *)
| LoLClosed                        (* "\n[HH:MM:SS] League of Legends closed. Re-enabling monitors..." *)
| Restoring (desc : string)        (* "  Restoring: {desc}" *)
| RestoreOk                        (* "  Restored successfully" *)
| RestoreFailed                    (* "  Failed to restore" *)
| AllRestored                      (* "All monitors restored!\n" *)
| Exiting                          (* "\n\nExiting..." *)
| ReenablingBeforeExit             (* "Re-enabling monitors before exit..." *)
| RestoredOnExit (desc : string)   (* "  Restored {desc}" *)
| Goodbye.                         (* "Goodbye!" *)

(** Texts emitted through [status_changed] by [main.py]. *)
Inductive status_msg :=
| ProcessDetected                  (* "Process detected! Disabling secondary monitors..." *)
| Disabled (desc : string)         (* "Disabled {desc}" *)
| FailedToDisable (desc : string)  (* "Failed to disable {desc}" *)
| MonitoringActive                 (* "Monitoring active - secondary monitors disabled" *)
| ProcessClosed                    (* "Process closed. Re-enabling monitors..." *)
| Restored (desc : string)         (* "Restored {desc}" *)
| FailedToRestore (desc : string)  (* "Failed to restore {desc}" *)
| IdleWaiting.                     (* "Idle - waiting for process" *)

Inductive event :=
| ChangeCall (device_name : string) (devmode : DEVMODE) (dwflags : Z) (result : Z)
| SleepCall (seconds : Q)
| Printed (m : console_msg)
| Emitted (m : status_msg).

(** The mutable state the programs share: the world and the module-level
    dict [monitor_settings = {}]. *)
Record St (W : Type) := mkSt {
  world : W;
  monitor_settings : gmap string DEVMODE
}.
Arguments mkSt {W} _ _.
Arguments world {W} _.
Arguments monitor_settings {W} _.

Record Res (W A : Type) := mkRes {
  val : A;
  st : St W;
  out : list event
}.
Arguments mkRes {W A} _ _ _.
Arguments val {W A} _.
Arguments st {W A} _.
Arguments out {W A} _.

Definition M (W A : Type) : Type := St W -> Res W A.

Definition ret {W A} (a : A) : M W A := fun s => mkRes a s [].

Definition bind {W A B} (m : M W A) (k : A -> M W B) : M W B :=
  fun s =>
    let r1 := m s in
    let r2 := k (val r1) (st r1) in
    mkRes (val r2) (st r2) (out r1 ++ out r2).

Declare Scope prog_scope.
Delimit Scope prog_scope with prog.
Notation "x <- m ;; k" := (bind m (fun x => k))
  (at level 100, m at next level, right associativity) : prog_scope.
Notation "m ;; k" := (bind m (fun _ => k))
  (at level 100, right associativity) : prog_scope.
Local Open Scope prog_scope.

(** [for x in xs: body(x)] *)
Fixpoint for_each {W A} (body : A -> M W unit) (xs : list A) : M W unit :=
  match xs with
  | [] => ret tt
  | x :: xs' => body x ;; for_each body xs'
  end.

Definition print {W} (m : console_msg) : M W unit :=
  fun s => mkRes tt s [Printed m].

Definition emit {W} (m : status_msg) : M W unit :=
  fun s => mkRes tt s [Emitted m].

Definition sleep `{OS W} (seconds : Q) : M W unit :=
  fun s => mkRes tt (mkSt (after_sleep (world s) seconds) (monitor_settings s))
             [SleepCall seconds].

Definition ChangeDisplaySettingsEx `{OS W} (device_name : string) (devmode : DEVMODE)
    (dwflags : Z) : M W Z :=
  fun s =>
    let answer := change_display_settings (world s) device_name devmode dwflags in
    mkRes (fst answer) (mkSt (snd answer) (monitor_settings s))
      [ChangeCall device_name devmode dwflags (fst answer)].

(** ** Functions that are textually identical in both files *)

Section Shared.
Context {W : Type} `{OS W}.

(** The [while True] loop of [get_all_monitors], with [i] and [monitors] as
    accumulators.  It stops at the first index the device table does not
    have; [fuel] bounds the number of rounds.  The two buffers the loop
    allocates ([device] with [cb] set, [devmode] with [dmSize] set) are
    overwritten by the calls, whose answers stand for the filled
    structures. *)
Fixpoint get_all_monitors_loop (fuel : nat) (w : W) (i : nat) (monitors : list monitor)
  : list monitor :=
  match fuel with
  | O => monitors
  | S fuel' =>
    match EnumDisplayDevices w i with
    | None => monitors
    | Some device =>
      let monitors' :=
        if Z.eqb (Z.land (StateFlags device) 1) 0 then monitors
        else
          let is_primary := negb (Z.eqb (Z.land (StateFlags device) 4) 0) in
          match EnumDisplaySettings w (DeviceName device) ENUM_CURRENT_SETTINGS with
          | Some devmode =>
              monitors ++ [ mkMonitor i (DeviceName device) (DeviceString device)
                              devmode is_primary ]
          | None => monitors
          end in
      get_all_monitors_loop fuel' w (S i) monitors'
    end
  end.

(** One more round than the table has entries: the last round sees the
    call fail and breaks. *)
Definition enumerate (w : W) : list monitor :=
  get_all_monitors_loop (S (length (display_devices w))) w 0 [].

Definition get_all_monitors : M W (list monitor) :=
  fun s => mkRes (enumerate (world s)) s [].

(** [monitor_settings[key] = value] *)
Definition setitem (key : string) (value : DEVMODE) : M W unit :=
  fun s => mkRes tt (mkSt (world s) (<[key := value]> (monitor_settings s))) [].

(** [key in monitor_settings] *)
Definition contains (key : string) : M W bool :=
  fun s => mkRes (bool_decide (is_Some (monitor_settings s !! key))) s [].

(** [len(monitor_settings)] *)
Definition len_monitor_settings : M W nat :=
  fun s => mkRes (size (monitor_settings s)) s [].

(** The devmode built by [disable_monitor]: a fresh structure with
    [dmSize], [dmFields], [dmPelsWidth] and [dmPelsHeight] assigned. *)
Definition disable_devmode : DEVMODE :=
  set_dmPelsHeight 0
    (set_dmPelsWidth 0
      (set_dmFields (Z.lor (Z.lor DM_PELSWIDTH DM_PELSHEIGHT) DM_POSITION)
        (set_dmSize sizeof_DEVMODE DEVMODE_new))).

Definition disable_monitor (monitor_name : string) : M W bool :=
  result <- ChangeDisplaySettingsEx monitor_name disable_devmode 0 ;;
  ret (Z.eqb result DISP_CHANGE_SUCCESSFUL).

Definition restore_monitor (monitor_name : string) (settings : DEVMODE) : M W bool :=
  result <- ChangeDisplaySettingsEx monitor_name settings 0 ;;
  ret (Z.eqb result DISP_CHANGE_SUCCESSFUL).

(** [restore_monitor(name, monitor_settings[name])].  Every call site is
    under an [if name in monitor_settings] guard; the [None] branch stands
    for the [KeyError] that cannot happen there. *)
Definition restore_saved (monitor_name : string) : M W bool :=
  fun s =>
    match monitor_settings s !! monitor_name with
    | Some saved => restore_monitor monitor_name saved s
    | None => mkRes false s []
    end.

(** [proc.info['exe'] and proc.info['exe'].lower() == path.lower()] over
    all processes, returning at the first match. *)
Definition exe_matches (path : string) (exe : option string) : bool :=
  match exe with
  | Some EmptyString => false
  | Some e => String.eqb (lower e) (lower path)
  | None => false
  end.

End Shared.

(** ** [monitor_manager.py] *)

Module Console.
Section Console.
Context {W : Type} `{OS W}.

Definition save_monitor_settings : M W unit :=
  monitors <- get_all_monitors ;;
  for_each (fun monitor => setitem (name monitor) (settings monitor)) monitors ;;
  n <- len_monitor_settings ;;
  print (SavedSettings n).

Definition lol_exe : string :=
  "c:\riot games\league of legends\game\league of legends.exe".

Definition is_lol_running : M W bool :=
  fun s => mkRes (existsb (exe_matches lol_exe) (process_exes (world s))) s [].

(** The local variables of [main] that live across loop rounds. *)
Record Locals := mkLocals {
  primary_monitor : option monitor;
  secondary_monitors : list monitor;
  lol_was_running : bool;
  monitors_disabled : bool
}.

(** [for i, monitor in enumerate(monitors)] of [main]. *)
Fixpoint classify (i : nat) (monitors : list monitor)
    (primary : option monitor) (secondary : list monitor)
  : M W (option monitor * list monitor) :=
  match monitors with
  | [] => ret (primary, secondary)
  | monitor :: rest =>
      print (MonitorLine (i + 1) (description monitor) (is_primary monitor)) ;;
      if is_primary monitor
      then classify (S i) rest (Some monitor) secondary
      else classify (S i) rest primary (secondary ++ [monitor])
  end.

(** [main] up to the loop: lines 133-160. *)
Definition startup : M W Locals :=
  print (Banner 1) ;; print (Banner 2) ;; print (Banner 3) ;; print (Banner 4) ;;
  save_monitor_settings ;;
  monitors <- get_all_monitors ;;
  print (FoundMonitors (length monitors)) ;;
  ps <- classify 0 monitors None [] ;;
  print BlankLine ;;
  (match snd ps with
   | [] => print NoSecondaryWarning ;; print ContinuingAnyway
   | _ :: _ => ret tt
   end) ;;
  ret (mkLocals (fst ps) (snd ps) false false).

(** Body of [for monitor in secondary_monitors] in the disable branch. *)
Definition disable_step (monitor : monitor) : M W unit :=
  print (AttemptDisable (description monitor)) ;;
  result <- disable_monitor (name monitor) ;;
  if (result : bool) then print (DisableOk (description monitor))
  else
    print (DisableFailed (description monitor)) ;;
    sleep (1 # 2) ;;
    retry <- disable_monitor (name monitor) ;;
    if (retry : bool) then print RetryOk else ret tt.

(** Body of [for monitor in secondary_monitors] in the restore branch. *)
Definition restore_step (monitor : monitor) : M W unit :=
  present <- contains (name monitor) ;;
  if (present : bool) then
    print (Restoring (description monitor)) ;;
    result <- restore_saved (name monitor) ;;
    if (result : bool) then print RestoreOk
    else
      print RestoreFailed ;;
      sleep (1 # 2) ;;
      retry <- restore_saved (name monitor) ;;
      if (retry : bool) then print RetryOk else ret tt
  else ret tt.

(** One round of [while True] after [lol_is_running = is_lol_running()]. *)
Definition loop_body (lol_is_running : bool) (l : Locals) : M W Locals :=
  l' <- (if lol_is_running && negb (lol_was_running l) then
           print LoLDetected ;; print WarnDisableSoon ;; print WarnMoveApps ;;
           for_each (fun i => print (Countdown i) ;; sleep (1 # 1)) [5; 4; 3; 2; 1]%nat ;;
           print DisablingSecondary ;;
           for_each disable_step (secondary_monitors l) ;;
           print DisablingComplete ;;
           ret (mkLocals (primary_monitor l) (secondary_monitors l) true true)
         else if negb lol_is_running && lol_was_running l then
           print LoLClosed ;;
           for_each restore_step (secondary_monitors l) ;;
           print AllRestored ;;
           ret (mkLocals (primary_monitor l) (secondary_monitors l) false false)
         else ret l) ;;
  sleep (2 # 1) ;;
  ret l'.

Definition loop_round (l : Locals) : M W Locals :=
  lol_is_running <- is_lol_running ;;
  loop_body lol_is_running l.

(** Body of [for monitor in secondary_monitors] in the interrupt handler. *)
Definition exit_step (monitor : monitor) : M W unit :=
  present <- contains (name monitor) ;;
  if (present : bool) then
    restore_saved (name monitor) ;;
    print (RestoredOnExit (description monitor))
  else ret tt.

(** [except KeyboardInterrupt:] *)
Definition on_keyboard_interrupt (l : Locals) : M W unit :=
  print Exiting ;;
  (if monitors_disabled l then
     print ReenablingBeforeExit ;;
     for_each exit_step (secondary_monitors l)
   else ret tt) ;;
  print Goodbye.

End Console.
End Console.

(** ** [main.py] *)

Module Gui.
Section Gui.
Context {W : Type} `{OS W}.

Definition save_monitor_settings : M W unit :=
  monitors <- get_all_monitors ;;
  for_each (fun monitor => setitem (name monitor) (settings monitor)) monitors.

(** The attributes [MonitorThread.__init__] sets. *)
Record MonitorThread := mkThread {
  target_exe_path : string;
  running : bool;
  process_was_running : bool;
  monitors_disabled : bool
}.

Definition init (target_exe_path : string) : MonitorThread :=
  mkThread target_exe_path true false false.

Definition set_target_exe (self : MonitorThread) (path : string) : MonitorThread :=
  mkThread path (running self) (process_was_running self) (monitors_disabled self).

Definition is_target_running (self : MonitorThread) : M W bool :=
  fun s =>
    mkRes (match target_exe_path self with
           | EmptyString => false
           | _ => existsb (exe_matches (target_exe_path self)) (process_exes (world s))
           end) s [].

(** [[m for m in monitors if not m['is_primary']]] *)
Definition secondary_of (monitors : list monitor) : list monitor :=
  List.filter (fun m => negb (is_primary m)) monitors.

(** Body of [for monitor in secondary_monitors] in the disable branch of [run]. *)
Definition disable_step (monitor : monitor) : M W unit :=
  result <- disable_monitor (name monitor) ;;
  if (result : bool) then emit (Disabled (description monitor))
  else emit (FailedToDisable (description monitor)).

(** Body of [for monitor in secondary_monitors] in the restore branch of [run]. *)
Definition restore_step (monitor : monitor) : M W unit :=
  present <- contains (name monitor) ;;
  if (present : bool) then
    result <- restore_saved (name monitor) ;;
    if (result : bool) then emit (Restored (description monitor))
    else emit (FailedToRestore (description monitor))
  else ret tt.

(** One round of [while self.running] after
    [process_is_running = self.is_target_running()]. *)
Definition loop_body (process_is_running : bool) (self : MonitorThread)
  : M W MonitorThread :=
  self' <- (if process_is_running && negb (process_was_running self) then
              emit ProcessDetected ;;
              monitors <- get_all_monitors ;;
              for_each disable_step (secondary_of monitors) ;;
              emit MonitoringActive ;;
              ret (mkThread (target_exe_path self) (running self) true true)
            else if negb process_is_running && process_was_running self then
              emit ProcessClosed ;;
              monitors <- get_all_monitors ;;
              for_each restore_step (secondary_of monitors) ;;
              emit IdleWaiting ;;
              ret (mkThread (target_exe_path self) (running self) false false)
            else ret self) ;;
  sleep (2 # 1) ;;
  ret self'.

Definition loop_round (self : MonitorThread) : M W MonitorThread :=
  if running self then
    process_is_running <- is_target_running self ;;
    loop_body process_is_running self
  else ret self.

(** Body of [for monitor in secondary_monitors] in [stop]. *)
Definition stop_step (monitor : monitor) : M W unit :=
  present <- contains (name monitor) ;;
  if (present : bool) then restore_saved (name monitor) ;; ret tt
  else ret tt.

Definition stop (self : MonitorThread) : M W MonitorThread :=
  let self' := mkThread (target_exe_path self) false (process_was_running self)
                 (monitors_disabled self) in
  (if monitors_disabled self' then
     monitors <- get_all_monitors ;;
     for_each stop_step (secondary_of monitors)
   else ret tt) ;;
  ret self'.

(** [SystemTrayApp.__init__], as far as the core is concerned: the baseline
    capture, then the thread object. *)
Definition startup (target_exe : string) : M W MonitorThread :=
  save_monitor_settings ;;
  ret (init target_exe).

End Gui.
End Gui.

(** ** Running a session controller over presence samples *)

(** What the two variants have in common, as the definitions below see them. *)
Record controller (W : Type) := mkController {
  locals : Type;
  boot : M W locals;
  step : bool -> locals -> M W locals;
  was_running : locals -> bool;
  disabled_flag : locals -> bool;
  shutdown : locals -> M W unit
}.
Arguments locals {W} _.
Arguments boot {W} _.
Arguments step {W} _ _ _.
Arguments was_running {W} _ _.
Arguments disabled_flag {W} _ _.
Arguments shutdown {W} _ _.

Definition console `{OS W} : controller W :=
  mkController W Console.Locals Console.startup Console.loop_body
    Console.lol_was_running Console.monitors_disabled Console.on_keyboard_interrupt.

Definition gui `{OS W} (target_exe : string) : controller W :=
  mkController W Gui.MonitorThread (Gui.startup target_exe) Gui.loop_body
    Gui.process_was_running Gui.monitors_disabled
    (fun self => Gui.stop self ;; ret tt).

(** One record per loop round: the sample it was given, where it started,
    what it did and where it ended. *)
Record round (W L : Type) := mkRound {
  sample : bool;
  locals_before : L;
  state_before : St W;
  events : list event;
  locals_after : L;
  state_after : St W
}.
Arguments mkRound {W L} _ _ _ _ _ _.
Arguments sample {W L} _.
Arguments locals_before {W L} _.
Arguments state_before {W L} _.
Arguments events {W L} _.
Arguments locals_after {W L} _.
Arguments state_after {W L} _.

Fixpoint rounds {W} (c : controller W) (samples : list bool) (l : locals c) (s : St W)
  : list (round W (locals c)) :=
  match samples with
  | [] => []
  | b :: samples' =>
      let r := step c b l s in
      mkRound b l s (out r) (val r) (st r) :: rounds c samples' (val r) (st r)
  end.

(** The loop itself, unrolled over the samples. *)
Fixpoint poll {W} (c : controller W) (samples : list bool) (l : locals c) : M W (locals c) :=
  match samples with
  | [] => ret l
  | b :: samples' => l' <- step c b l ;; poll c samples' l'
  end.

(** Start-up, the loop over [samples], then shutdown. *)
Definition session {W} (c : controller W) (samples : list bool) : M W unit :=
  l <- boot c ;;
  l' <- poll c samples l ;;
  shutdown c l'.

(** The process starts with an empty [monitor_settings]. *)
Definition fresh {W} (w : W) : St W := mkSt w ∅.

(** [n] rounds of a [while] loop whose body is [round]. *)
Fixpoint run_loop {W L} (round : L -> M W L) (n : nat) (l : L) : M W L :=
  match n with
  | O => ret l
  | S n' => l' <- round l ;; run_loop round n' l'
  end.

(** The presence samples that [n] rounds of the loop read, when [detect]
    is the presence detector and [body] the rest of the round. *)
Fixpoint samples_read {W L} (detect : L -> M W bool) (body : bool -> L -> M W L)
    (n : nat) (l : L) (s : St W) : list bool :=
  match n with
  | O => []
  | S n' =>
      let b := val (detect l s) in
      let r := body b l (st (detect l s)) in
      b :: samples_read detect body n' (val r) (st r)
  end.

(** *** Reading an event trace *)

Definition is_detected (e : event) : bool :=
  match e with
  | Printed LoLDetected => true
  | Emitted ProcessDetected => true
  | _ => false
  end.

Definition is_closed (e : event) : bool :=
  match e with
  | Printed LoLClosed => true
  | Emitted ProcessClosed => true
  | _ => false
  end.

(** A disable pass opens with the "detected" message, a restore pass with
    the "closed" message. *)
Definition disable_pass_fired (evs : list event) : bool := existsb is_detected evs.
Definition restore_pass_fired (evs : list event) : bool := existsb is_closed evs.

(** The mode-change calls of a trace, with their results. *)
Definition change_calls (evs : list event) : list event :=
  List.filter (fun e => match e with ChangeCall _ _ _ _ => true | _ => false end) evs.

(** The arguments of the mode-change calls of a trace. *)
Definition change_args (evs : list event) : list (string * DEVMODE * Z) :=
  flat_map (fun e => match e with
                     | ChangeCall n d f _ => [(n, d, f)]
                     | _ => []
                     end) evs.

Definition change_names (evs : list event) : list string :=
  map (fun a => fst (fst a)) (change_args evs).



Definition names (monitors : list monitor) : list string := map name monitors.



(** ** A scripted operating system, for concrete runs *)

Module Sim.

(** What the display and process tables look like at one moment. *)
Record snapshot := mkSnapshot {
  devices : list DISPLAY_DEVICE;
  modes : list (string * DEVMODE);
  procs : list (option string)
}.

(** The scripted world: the tables now, the return codes of the coming
    mode-change calls (success once the script runs out) and the tables
    after each coming sleep (unchanged once the script runs out). *)
Record world := mkWorld {
  now : snapshot;
  codes : list Z;
  future : list snapshot
}.

Fixpoint assoc (key : string) (table : list (string * DEVMODE)) : option DEVMODE :=
  match table with
  | [] => None
  | (k, v) :: rest => if String.eqb k key then Some v else assoc key rest
  end.

Definition change (w : world) : Z * world :=
  match codes w with
  | [] => (DISP_CHANGE_SUCCESSFUL, w)
  | code :: rest => (code, mkWorld (now w) rest (future w))
  end.

Definition pass_time (w : world) : world :=
  match future w with
  | [] => w
  | next :: rest => mkWorld next (codes w) rest
  end.

Definition ascii_lower (c : ascii) : ascii :=
  let n := nat_of_ascii c in
  if (Nat.leb 65 n && Nat.leb n 90)%bool then ascii_of_nat (n + 32) else c.

Fixpoint string_lower (s : string) : string :=
  match s with
  | EmptyString => EmptyString
  | String c rest => String (ascii_lower c) (string_lower rest)
  end.

#[global] Instance sim_os : OS world := {
  display_devices w := devices (now w);
  display_settings w device_name := assoc device_name (modes (now w));
  change_display_settings w _ _ _ := change w;
  process_exes w := procs (now w);
  after_sleep w _ := pass_time w;
  lower := string_lower
}.

(** *** A desk with two screens *)

Definition mode (width height : Z) : DEVMODE :=
  set_dmPelsHeight height (set_dmPelsWidth width (set_dmSize sizeof_DEVMODE DEVMODE_new)).

Definition DISPLAY1 : string := "\\.\DISPLAY1".
Definition DISPLAY2 : string := "\\.\DISPLAY2".
Definition DISPLAY3 : string := "\\.\DISPLAY3".

(** [StateFlags]: 1 is attached to the desktop, 4 is the primary device. *)
Definition laptop_panel : DISPLAY_DEVICE :=
  mkDISPLAY_DEVICE 0 DISPLAY1 "Laptop panel" 5 EmptyString EmptyString.
Definition side_screen : DISPLAY_DEVICE :=
  mkDISPLAY_DEVICE 0 DISPLAY2 "Side screen" 1 EmptyString EmptyString.
Definition projector : DISPLAY_DEVICE :=
  mkDISPLAY_DEVICE 0 DISPLAY3 "Projector" 1 EmptyString EmptyString.

Definition game : option string :=
  Some "C:\Riot Games\League of Legends\Game\League of Legends.exe".

(** Two screens, the game not running. *)
Definition two_screens : snapshot :=
  mkSnapshot [laptop_panel; side_screen]
    [(DISPLAY1, mode 1920 1080); (DISPLAY2, mode 2560 1440)] [].

(** The same desk after someone lowered the side screen's resolution. *)
Definition two_screens_lowres : snapshot :=
  mkSnapshot [laptop_panel; side_screen]
    [(DISPLAY1, mode 1920 1080); (DISPLAY2, mode 1280 720)] [].

(** A projector has been plugged in and the game started. *)
Definition three_screens_playing : snapshot :=
  mkSnapshot [laptop_panel; side_screen; projector]
    [(DISPLAY1, mode 1920 1080); (DISPLAY2, mode 2560 1440); (DISPLAY3, mode 1024 768)]
    [game].

(** Nothing scripted: the desk stays as it is and every call succeeds. *)
Definition quiet_desk : world := mkWorld two_screens [] [].

(** The first mode-change call fails with [DISP_CHANGE_FAILED] (-1). *)
Definition stubborn_desk : world := mkWorld two_screens [-1] [].

(** The resolution of the side screen changes during the first sleep. *)
Definition retuned_desk : world := mkWorld two_screens [] [two_screens_lowres].

(** The projector is plugged in during the first sleep. *)
Definition hotplug_desk : world := mkWorld two_screens [] [three_screens_playing].

(** A laptop on its own, with the game running. *)
Definition laptop_only : world :=
  mkWorld (mkSnapshot [laptop_panel] [(DISPLAY1, mode 1920 1080)] [game]) [] [].

End Sim.

(** ** Vocabulary for the proofs *)

(** [m] keeps the property [I] of the shared state. *)
Definition preserves {W A} (I : St W -> Prop) (m : M W A) : Prop :=
  forall s, I s -> I (st (m s)).

(** [I] survives the two primitives that change the world, and does not
    look at anything else. *)
Definition os_stable `{OS W} (I : St W -> Prop) : Prop :=
  (forall s d, I s -> I (st (sleep d s))) /\
  (forall s n dm f, I s -> I (st (ChangeDisplaySettingsEx n dm f s))).

(** The snapshot map a baseline capture at world [w] writes into [ms]. *)
Definition captured `{OS W} (w : W) (ms : gmap string DEVMODE) : gmap string DEVMODE :=
  foldl (fun acc m => <[name m := settings m]> acc) ms (enumerate w).

(** What the specification expects of a run of loop rounds, given the
    sample before the first one: a disable pass exactly on a rising edge,
    a restore pass exactly on a falling edge, no mode-change call on a
    repeated sample, and the disabled flag following the sample. *)
Fixpoint edge_triggered {W L} (flag : L -> bool) (prev : bool) (rs : list (round W L))
  : Prop :=
  match rs with
  | [] => True
  | r :: rs' =>
      disable_pass_fired (events r) = (sample r && negb prev)%bool /\
      restore_pass_fired (events r) = (negb (sample r) && prev)%bool /\
      (sample r = prev -> change_calls (events r) = [] /\ locals_after r = locals_before r) /\
      flag (locals_after r) = sample r /\
      edge_triggered flag (sample r) rs'
  end.

(** The number of disable passes in a run. *)
Definition disable_passes {W L} (rs : list (round W L)) : nat :=
  length (List.filter (fun r => disable_pass_fired (events r)) rs).

(** Every event [m] produces satisfies [P]. *)
Definition emits {W A} (P : event -> Prop) (m : M W A) : Prop :=
  forall s, Forall P (out (m s)).

(** The mode-change calls a restore pass over [monitors] makes when the
    snapshot map is [ms]: one per monitor that has an entry, with the
    stored mode, in list order. *)
Definition restore_targets (ms : gmap string DEVMODE) (monitors : list monitor)
  : list (string * DEVMODE * Z) :=
  flat_map (fun m => match ms !! name m with
                     | Some saved => [(name m, saved, 0)]
                     | None => []
                     end) monitors.

(** The mode-change calls of a disable pass without retries. *)
Definition disable_targets (monitors : list monitor) : list (string * DEVMODE * Z) :=
  map (fun m => (name m, disable_devmode, 0)) monitors.

(** The number of rising edges in a list of samples, given the sample
    before the first one. *)
Fixpoint rising_edges (prev : bool) (samples : list bool) : nat :=
  match samples with
  | [] => 0
  | b :: rest => ((if (b && negb prev)%bool then 1 else 0) + rising_edges b rest)%nat
  end.

(** What one loop round owes to edge detection. *)
Definition edge_step {W} (c : controller W) : Prop :=
  forall b l s,
    was_running c l = disabled_flag c l ->
    disable_pass_fired (out (step c b l s)) = (b && negb (was_running c l))%bool
    /\ restore_pass_fired (out (step c b l s)) = (negb b && was_running c l)%bool
    /\ (b = was_running c l -> change_calls (out (step c b l s)) = [] /\ val (step c b l s) = l)
    /\ was_running c (val (step c b l s)) = b
    /\ disabled_flag c (val (step c b l s)) = b.

(** The events that are not mode-change calls. *)
Definition not_a_call (e : event) : Prop :=
  match e with
  | ChangeCall _ _ _ _ => False
  | _ => True
  end.



(** What [get_all_monitors] appends for the device at index [i]: nothing
    for a device that is not attached to the desktop or whose mode query
    fails, one dict otherwise. *)
Definition monitor_of `{OS W} (w : W) (i : nat) (d : DISPLAY_DEVICE) : list monitor :=
  if Z.eqb (Z.land (StateFlags d) 1) 0 then []
  else match display_settings w (DeviceName d) with
       | Some devmode =>
           [ mkMonitor i (DeviceName d) (DeviceString d) devmode
               (negb (Z.eqb (Z.land (StateFlags d) 4) 0)) ]
       | None => []
       end.

(** The monitors of the devices [devs], the first of which has index [i]. *)
Fixpoint listing `{OS W} (w : W) (i : nat) (devs : list DISPLAY_DEVICE) : list monitor :=
  match devs with
  | [] => []
  | d :: rest => monitor_of w i d ++ listing w (S i) rest
  end.




(** [calls] is a pass over [targets] with at most [retries] retries: the
    calls of [targets] in order, each made at least once and at most
    [1 + retries] times in a row. *)
Definition pass_of (retries : nat) (targets calls : list (string * DEVMODE * Z)) : Prop :=
  exists ks : list nat,
    length ks = length targets
    /\ Forall (fun k => 1 <= k <= S retries)%nat ks
    /\ calls = concat (zip_with replicate ks targets).

(** Edge detection with the passes themselves.  For each round, given the
    sample before it: on a rising edge the round announces the detection
    and its mode-change calls are a disable pass over the round's
    secondary displays; on a falling edge it announces the closing and its
    calls are a restore pass over those of the secondary displays that
    have a snapshot entry; on a repeated sample it announces nothing and
    makes no call. *)
Fixpoint passes_on_edges {W L} (retries : nat) (secondaries : round W L -> list monitor)
    (prev : bool) (rs : list (round W L)) : Prop :=
  match rs with
  | [] => True
  | r :: rs' =>
      (if (sample r && negb prev)%bool then
         disable_pass_fired (events r) = true
         /\ restore_pass_fired (events r) = false
         /\ pass_of retries (disable_targets (secondaries r)) (change_args (events r))
       else if (negb (sample r) && prev)%bool then
         disable_pass_fired (events r) = false
         /\ restore_pass_fired (events r) = true
         /\ pass_of retries
              (restore_targets (monitor_settings (state_before r)) (secondaries r))
              (change_args (events r))
       else
         disable_pass_fired (events r) = false
         /\ restore_pass_fired (events r) = false
         /\ change_args (events r) = [])
      /\ passes_on_edges retries secondaries (sample r) rs'
  end.

(** A mode-change call that is in order for a session whose snapshot map
    is [ms] and whose secondary displays are [secondaries]: it names one of
    them, its flags are 0, and its mode is either the zero-size mode of
    [disable_monitor] or the mode stored for that display. *)
Definition session_call (ms : gmap string DEVMODE) (secondaries : list monitor)
    (a : string * DEVMODE * Z) : Prop :=
  exists m, m ∈ secondaries
            /\ (a = (name m, disable_devmode, 0)
                \/ exists saved, ms !! name m = Some saved /\ a = (name m, saved, 0)).

(** ** [create_icon.py] *)

(** Lines 19-26 of [create_icon]: the box handed to [img.crop] when the
    image is not square, [None] when it is square and no crop is made.
    [width] and [height] are the ints of [img.size]; Python's [/] on ints is
    true division, and the halves it yields here are exact in floating
    point for every size below 2^52, so rationals stand for them. *)
Definition crop_box (width height : Z) : option (Q * Q * Q * Q) :=
  if negb (Z.eqb width height) then
    let new_size := Z.min width height in
    let left := (inject_Z (width - new_size) / (2 # 1))%Q in
    let top := (inject_Z (height - new_size) / (2 # 1))%Q in
    let right := (inject_Z (width + new_size) / (2 # 1))%Q in
    let bottom := (inject_Z (height + new_size) / (2 # 1))%Q in
    Some (left, top, right, bottom)
  else None.

(** * Properties *)

(** ** The monad computes *)

Section MonadFacts.
Context {W : Type} `{OS W}.

Lemma bind_val {A B} (m : M W A) (k : A -> M W B) s :
  val (bind m k s) = val (k (val (m s)) (st (m s))).
Proof. reflexivity. Qed.

Lemma bind_st {A B} (m : M W A) (k : A -> M W B) s :
  st (bind m k s) = st (k (val (m s)) (st (m s))).
Proof. reflexivity. Qed.

Lemma bind_out {A B} (m : M W A) (k : A -> M W B) s :
  out (bind m k s) = out (m s) ++ out (k (val (m s)) (st (m s))).
Proof. reflexivity. Qed.

Lemma for_each_cons {A} (body : A -> M W unit) x xs s :
  for_each body (x :: xs) s = bind (body x) (fun _ => for_each body xs) s.
Proof. reflexivity. Qed.

(** The trace of the unrolled loop is the concatenation of the rounds'
    traces, and its final state is that of the last round. *)
Lemma poll_rounds_out (c : controller W) samples l s :
  out (poll c samples l s) = concat (map events (rounds c samples l s)).
Proof.
  revert l s. induction samples as [|b bs IH]; intros l s; [reflexivity|].
  cbn [poll rounds map concat events]. rewrite bind_out, IH. reflexivity.
Qed.

Lemma rounds_length (c : controller W) samples l s :
  length (rounds c samples l s) = length samples.
Proof.
  revert l s. induction samples as [|b bs IH]; intros l s; simpl; [reflexivity|].
  now rewrite IH.
Qed.

Lemma rounds_samples (c : controller W) samples l s :
  map sample (rounds c samples l s) = samples.
Proof.
  revert l s. induction samples as [|b bs IH]; intros l s; simpl; [reflexivity|].
  now rewrite IH.
Qed.

End MonadFacts.

(** ** The loops are the unrolled rounds *)

Section Loops.
Context {W : Type} `{OS W}.

(** The console's [while True], run for [n] rounds, is [poll] over the
    samples [is_lol_running] returns on the way. *)
Lemma console_loop_is_poll n l (s : St W) :
  run_loop Console.loop_round n l s
  = poll console (samples_read (fun _ => Console.is_lol_running) Console.loop_body n l s) l s.
Proof.
  revert l s. induction n as [|n IH]; intros l s; [reflexivity|].
  cbn [run_loop samples_read poll].
  assert (Hround : Console.loop_round l s
                   = Console.loop_body (val (Console.is_lol_running s)) l s).
  { unfold Console.loop_round, bind. cbn [Console.is_lol_running val st out app].
    destruct (Console.loop_body _ l s); reflexivity. }
  unfold bind at 1 2. rewrite Hround. cbn [Console.is_lol_running st console step].
  rewrite IH. reflexivity.
Qed.

Lemma gui_loop_body_running b self (s : St W) :
  Gui.running (val (Gui.loop_body b self s)) = Gui.running self.
Proof.
  unfold Gui.loop_body.
  destruct (b && negb (Gui.process_was_running self))%bool;
    [| destruct (negb b && Gui.process_was_running self)%bool]; reflexivity.
Qed.

(** The tray application's [while self.running], run for [n] rounds while
    nobody has called [stop], is [poll] over the samples
    [is_target_running] returns on the way. *)
Lemma gui_loop_is_poll n self (s : St W) :
  Gui.running self = true ->
  run_loop Gui.loop_round n self s
  = poll (gui (Gui.target_exe_path self))
      (samples_read Gui.is_target_running Gui.loop_body n self s) self s.
Proof.
  revert self s. induction n as [|n IH]; intros self s Hrun; [reflexivity|].
  cbn [run_loop samples_read poll]. unfold bind at 1 2.
  assert (Hround : Gui.loop_round self s
                   = Gui.loop_body (val (Gui.is_target_running self s)) self s).
  { unfold Gui.loop_round. rewrite Hrun. unfold bind. cbn [Gui.is_target_running val st out app].
    destruct (Gui.loop_body _ self s); reflexivity. }
  rewrite Hround. cbn [Gui.is_target_running st]. cbn [gui step].
  rewrite IH by (rewrite gui_loop_body_running; exact Hrun).
  assert (Htarget : Gui.target_exe_path
                      (val (Gui.loop_body (val (Gui.is_target_running self s)) self s))
                    = Gui.target_exe_path self).
  { unfold Gui.loop_body.
    destruct (_ && negb (Gui.process_was_running self))%bool;
      [| destruct (negb _ && Gui.process_was_running self)%bool]; reflexivity. }
  cbn [Gui.is_target_running val] in Htarget |- *. rewrite Htarget. reflexivity.
Qed.

End Loops.

(** ** What a program keeps *)

Section Preservation.
Context {W : Type} `{OS W}.
Variable I : St W -> Prop.

Lemma preserves_ret {A} (a : A) : preserves I (ret a).
Proof. intros s Hs. exact Hs. Qed.

Lemma preserves_bind {A B} (m : M W A) (k : A -> M W B) :
  preserves I m -> (forall a, preserves I (k a)) -> preserves I (bind m k).
Proof. intros Hm Hk s Hs. rewrite bind_st. apply Hk, Hm, Hs. Qed.

Lemma preserves_for_each {A} (body : A -> M W unit) xs :
  (forall x, preserves I (body x)) -> preserves I (for_each body xs).
Proof.
  intros Hb. induction xs as [|x xs IH]; simpl.
  - apply preserves_ret.
  - apply preserves_bind; [apply Hb | intros _; exact IH].
Qed.

Lemma preserves_if {A} (b : bool) (m1 m2 : M W A) :
  preserves I m1 -> preserves I m2 -> preserves I (if b then m1 else m2).
Proof. destruct b; auto. Qed.

Lemma preserves_print m : preserves I (print m).
Proof. intros s Hs. exact Hs. Qed.

Lemma preserves_emit m : preserves I (emit m).
Proof. intros s Hs. exact Hs. Qed.

Lemma preserves_get_all_monitors : preserves I get_all_monitors.
Proof. intros s Hs. exact Hs. Qed.

Lemma preserves_contains key : preserves I (contains key).
Proof. intros s Hs. exact Hs. Qed.

Hypothesis I_stable : os_stable I.

Lemma preserves_sleep d : preserves I (sleep d).
Proof. intros s Hs. apply I_stable, Hs. Qed.

Lemma preserves_ChangeDisplaySettingsEx n dm f :
  preserves I (ChangeDisplaySettingsEx n dm f).
Proof. intros s Hs. apply I_stable, Hs. Qed.

Lemma preserves_disable_monitor n : preserves I (disable_monitor n).
Proof.
  apply preserves_bind; [apply preserves_ChangeDisplaySettingsEx|].
  intros a. apply preserves_ret.
Qed.

Lemma preserves_restore_monitor n dm : preserves I (restore_monitor n dm).
Proof.
  apply preserves_bind; [apply preserves_ChangeDisplaySettingsEx|].
  intros a. apply preserves_ret.
Qed.

Lemma preserves_restore_saved n : preserves I (restore_saved n).
Proof.
  intros s Hs. unfold restore_saved.
  destruct (monitor_settings s !! n); [apply preserves_restore_monitor, Hs | exact Hs].
Qed.

End Preservation.

Create HintDb keep discriminated.
#[global] Hint Resolve preserves_ret preserves_print preserves_emit
  preserves_get_all_monitors preserves_contains preserves_sleep
  preserves_ChangeDisplaySettingsEx preserves_disable_monitor
  preserves_restore_monitor preserves_restore_saved : keep.

(** Splits a program along its binds, loops and conditionals. *)
Ltac keep_step :=
  first
    [ apply preserves_bind; [|intros ?]
    | apply preserves_for_each; intros ?
    | apply preserves_if
    | solve [eauto with keep] ].

Ltac solve_keep := repeat keep_step.

Section ControllersKeep.
Context {W : Type} `{OS W}.
Variable I : St W -> Prop.
Hypothesis I_stable : os_stable I.

Lemma console_disable_step_keeps m : preserves I (Console.disable_step m).
Proof. unfold Console.disable_step. solve_keep. Qed.

Lemma console_restore_step_keeps m : preserves I (Console.restore_step m).
Proof. unfold Console.restore_step. solve_keep. Qed.

Lemma console_exit_step_keeps m : preserves I (Console.exit_step m).
Proof. unfold Console.exit_step. solve_keep. Qed.

Lemma console_loop_body_keeps b l : preserves I (Console.loop_body b l).
Proof.
  unfold Console.loop_body. solve_keep;
    auto using console_disable_step_keeps, console_restore_step_keeps.
Qed.

Lemma console_interrupt_keeps l : preserves I (Console.on_keyboard_interrupt l).
Proof.
  unfold Console.on_keyboard_interrupt. solve_keep; auto using console_exit_step_keeps.
Qed.

Lemma gui_disable_step_keeps m : preserves I (Gui.disable_step m).
Proof. unfold Gui.disable_step. solve_keep. Qed.

Lemma gui_restore_step_keeps m : preserves I (Gui.restore_step m).
Proof. unfold Gui.restore_step. solve_keep. Qed.

Lemma gui_stop_step_keeps m : preserves I (Gui.stop_step m).
Proof. unfold Gui.stop_step. solve_keep. Qed.

Lemma gui_loop_body_keeps b self : preserves I (Gui.loop_body b self).
Proof.
  unfold Gui.loop_body. solve_keep;
    auto using gui_disable_step_keeps, gui_restore_step_keeps.
Qed.

Lemma gui_stop_keeps self : preserves I (Gui.stop self).
Proof. unfold Gui.stop. simpl. solve_keep; auto using gui_stop_step_keeps. Qed.

Lemma poll_keeps (c : controller W) samples :
  (forall b l, preserves I (step c b l)) ->
  forall l, preserves I (poll c samples l).
Proof.
  intros Hstep. induction samples as [|b bs IH]; intros l; simpl.
  - apply preserves_ret.
  - apply preserves_bind; [apply Hstep | intros l'; apply IH].
Qed.

End ControllersKeep.

(** ** Enumeration and the baseline capture *)

Section Enumeration.
Context {W : Type} `{OS W}.

(** The fuel [enumerate] gives the loop is enough: from there on, more
    fuel changes nothing, so the loop ends by its own [break]. *)
Lemma get_all_monitors_loop_fuel (w : W) fuel i acc :
  (length (display_devices w) - i < fuel)%nat ->
  get_all_monitors_loop (S fuel) w i acc = get_all_monitors_loop fuel w i acc.
Proof.
  revert i acc. induction fuel as [|fuel IH]; intros i acc Hlt; [lia|].
  cbn [get_all_monitors_loop]. unfold EnumDisplayDevices.
  destruct (display_devices w !! i) as [device|] eqn:Hdev; [|reflexivity].
  apply lookup_lt_Some in Hdev.
  apply (IH (S i)). lia.
Qed.

Lemma enumerate_total (w : W) extra :
  get_all_monitors_loop (extra + S (length (display_devices w))) w 0 [] = enumerate w.
Proof.
  induction extra as [|extra IH]; [reflexivity|].
  cbn [Nat.add]. rewrite get_all_monitors_loop_fuel; [exact IH | lia].
Qed.

(** Every monitor of the list carries the mode the OS reports for its name. *)
Lemma get_all_monitors_loop_settings (w : W) fuel i acc :
  Forall (fun m => display_settings w (name m) = Some (settings m)) acc ->
  Forall (fun m => display_settings w (name m) = Some (settings m))
    (get_all_monitors_loop fuel w i acc).
Proof.
  revert i acc. induction fuel as [|fuel IH]; intros i acc Hacc; [exact Hacc|].
  cbn [get_all_monitors_loop].
  destruct (EnumDisplayDevices w i) as [device|]; [|exact Hacc].
  apply IH.
  destruct (Z.eqb (Z.land (StateFlags device) 1) 0); [exact Hacc|].
  unfold EnumDisplaySettings.
  destruct (display_settings w (DeviceName device)) as [devmode|] eqn:Hmode; [|exact Hacc].
  apply Forall_app. split; [exact Hacc|].
  constructor; [exact Hmode | constructor].
Qed.

Lemma enumerate_settings (w : W) m :
  m ∈ enumerate w -> display_settings w (name m) = Some (settings m).
Proof.
  intros Hin.
  pose proof (get_all_monitors_loop_settings w (S (length (display_devices w))) 0 []
                (Forall_nil_2 _)) as Hall.
  rewrite Forall_forall in Hall. apply Hall, Hin.
Qed.

Lemma for_each_setitem (l : list monitor) (s : St W) :
  st (for_each (fun m => setitem (name m) (settings m)) l s)
  = mkSt (world s) (foldl (fun acc m => <[name m := settings m]> acc) (monitor_settings s) l)
  /\ out (for_each (fun m => setitem (name m) (settings m)) l s) = [].
Proof.
  revert s. induction l as [|m l IH]; intros s.
  - destruct s; split; reflexivity.
  - rewrite for_each_cons, bind_st, bind_out.
    destruct (IH (st (setitem (name m) (settings m) s))) as [-> ->].
    split; reflexivity.
Qed.

Lemma gui_save_state (s : St W) :
  st (Gui.save_monitor_settings s) = mkSt (world s) (captured (world s) (monitor_settings s)).
Proof.
  unfold Gui.save_monitor_settings. rewrite bind_st.
  apply (for_each_setitem (enumerate (world s)) s).
Qed.

Lemma gui_save_out (s : St W) : out (Gui.save_monitor_settings s) = [].
Proof.
  unfold Gui.save_monitor_settings. rewrite bind_out.
  apply (for_each_setitem (enumerate (world s)) s).
Qed.

Lemma console_save_state (s : St W) :
  st (Console.save_monitor_settings s)
  = mkSt (world s) (captured (world s) (monitor_settings s)).
Proof.
  unfold Console.save_monitor_settings. rewrite !bind_st.
  apply (for_each_setitem (enumerate (world s)) s).
Qed.

Lemma console_save_out (s : St W) :
  out (Console.save_monitor_settings s)
  = [Printed (SavedSettings (size (captured (world s) (monitor_settings s))))].
Proof.
  unfold Console.save_monitor_settings.
  destruct (for_each_setitem (enumerate (world s)) s) as [Hst Hout].
  unfold bind. cbn [get_all_monitors val st out app].
  rewrite Hout, Hst. reflexivity.
Qed.

Lemma foldl_insert_lookup (ds : string -> option DEVMODE) (l : list monitor)
    (ms : gmap string DEVMODE) (key : string) :
  Forall (fun m => ds (name m) = Some (settings m)) l ->
  foldl (fun acc m => <[name m := settings m]> acc) ms l !! key
  = if decide (key ∈ names l) then ds key else ms !! key.
Proof.
  revert ms. induction l as [|m l IH]; intros ms Hall.
  - cbn. case_decide as Hin; [|reflexivity]. inversion Hin.
  - apply Forall_cons in Hall as [Hm Hall]. cbn [foldl]. rewrite (IH _ Hall).
    unfold names in *. cbn [map].
    destruct (decide (key ∈ map name l)) as [Hin|Hnin].
    + rewrite decide_True; [reflexivity | right; exact Hin].
    + destruct (decide (name m = key)) as [<-|Hne].
      * rewrite lookup_insert_eq, decide_True; [now rewrite Hm | left].
      * rewrite lookup_insert_ne by exact Hne.
        rewrite decide_False; [reflexivity|].
        intros Hin. apply elem_of_cons in Hin as [Heq|Hin]; [congruence | contradiction].
Qed.

(** The capture stores, for every enumerated name, the mode the OS reports
    now, and leaves every other entry as it was. *)
Lemma captured_lookup (w : W) (ms : gmap string DEVMODE) (key : string) :
  captured w ms !! key
  = if decide (key ∈ names (enumerate w)) then display_settings w key else ms !! key.
Proof.
  unfold captured. apply foldl_insert_lookup.
  rewrite Forall_forall. intros m Hin. apply enumerate_settings, Hin.
Qed.

Lemma captured_dom (w : W) (ms : gmap string DEVMODE) (key : string) :
  key ∈ names (enumerate w) -> is_Some (captured w ms !! key).
Proof.
  intros Hin. rewrite captured_lookup, decide_True by exact Hin.
  unfold names in Hin. apply list_elem_of_fmap in Hin as (m & -> & Hm).
  rewrite (enumerate_settings _ _ Hm). eauto.
Qed.

End Enumeration.

(** ** Start-up *)

Section Startup.
Context {W : Type} `{OS W}.

Lemma classify_state i monitors primary secondary (s : St W) :
  st (Console.classify i monitors primary secondary s) = s.
Proof.
  revert i primary secondary.
  induction monitors as [|m ms IH]; intros i primary secondary; [reflexivity|].
  cbn [Console.classify]. rewrite bind_st. cbn [print st].
  destruct (is_primary m); apply IH.
Qed.

Lemma classify_secondary i monitors primary secondary (s : St W) :
  snd (val (Console.classify i monitors primary secondary s))
  = secondary ++ Gui.secondary_of monitors.
Proof.
  revert i primary secondary s.
  induction monitors as [|m ms IH]; intros i primary secondary s.
  - cbn. now rewrite app_nil_r.
  - cbn [Console.classify]. rewrite bind_val. cbn [print st val].
    unfold Gui.secondary_of in *. cbn [List.filter].
    destruct (is_primary m); cbn [negb].
    + apply IH.
    + rewrite IH, <- app_assoc. reflexivity.
Qed.

Lemma console_startup_state (s : St W) :
  st (Console.startup s) = mkSt (world s) (captured (world s) (monitor_settings s)).
Proof.
  unfold Console.startup. rewrite !bind_st. cbn [print st val].
  rewrite console_save_state. cbn [get_all_monitors st val].
  rewrite classify_state.
  destruct (snd _); reflexivity.
Qed.

Lemma console_startup_val (s : St W) :
  Console.secondary_monitors (val (Console.startup s))
    = Gui.secondary_of (enumerate (world s))
  /\ Console.lol_was_running (val (Console.startup s)) = false
  /\ Console.monitors_disabled (val (Console.startup s)) = false.
Proof.
  unfold Console.startup. rewrite !bind_val, ?bind_st. cbn [print st val].
  rewrite console_save_state. cbn [get_all_monitors st val world].
  rewrite classify_state. cbn [ret val Console.secondary_monitors
    Console.lol_was_running Console.monitors_disabled].
  rewrite classify_secondary. auto.
Qed.

Lemma gui_startup_state target (s : St W) :
  st (Gui.startup target s) = mkSt (world s) (captured (world s) (monitor_settings s)).
Proof. unfold Gui.startup. rewrite bind_st. cbn [ret st]. apply gui_save_state. Qed.

Lemma gui_startup_val target (s : St W) :
  val (Gui.startup target s) = Gui.init target.
Proof. reflexivity. Qed.

Lemma settings_stable (ms : gmap string DEVMODE) :
  os_stable (fun s : St W => monitor_settings s = ms).
Proof. split; intros; assumption. Qed.

End Startup.

(** ** The mode controller and the snapshot store *)

(** C4, as amended: [disable_monitor] issues exactly one mode-change call
    on the named display; the mode it passes has width 0, height 0, the
    position fields at their initial zero and the field mask
    [DM_PELSWIDTH | DM_PELSHEIGHT | DM_POSITION]; the call's flags argument
    is 0, in which the [CDS_UPDATEREGISTRY] bit is not set; the function
    returns true exactly when the OS returns [DISP_CHANGE_SUCCESSFUL]. *)
Theorem disable_monitor_single_call `{OS W} (monitor_name : string) (s : St W) :
  let code := fst (change_display_settings (world s) monitor_name disable_devmode 0) in
  out (disable_monitor monitor_name s) = [ChangeCall monitor_name disable_devmode 0 code]
  /\ (val (disable_monitor monitor_name s) = true <-> code = DISP_CHANGE_SUCCESSFUL)
  /\ dmPelsWidth disable_devmode = 0
  /\ dmPelsHeight disable_devmode = 0
  /\ dmPositionX disable_devmode = 0
  /\ dmPositionY disable_devmode = 0
  /\ dmFields disable_devmode = Z.lor (Z.lor DM_PELSWIDTH DM_PELSHEIGHT) DM_POSITION
  /\ Z.land 0 CDS_UPDATEREGISTRY = 0.
Proof.
  cbn zeta. split; [reflexivity|]. split; [|repeat split].
  split.
  - cbn. intros Hval. apply Z.eqb_eq, Hval.
  - cbn. intros Hcode. apply Z.eqb_eq, Hcode.
Qed.

(** C4, as stated, fails on the flags: disabling the side screen of the
    quiet desk does not issue a single call whose flags are
    [CDS_UPDATEREGISTRY]. *)
Lemma disable_monitor_flags_counterexample :
  ~ (exists devmode,
       change_args (out (disable_monitor Sim.DISPLAY2 (fresh Sim.quiet_desk)))
       = [(Sim.DISPLAY2, devmode, CDS_UPDATEREGISTRY)]).
Proof. intros [devmode Hcall]. cbn in Hcall. inversion Hcall. Qed.

(** C7: [restore_monitor] hands the OS exactly the structure it was given,
    in a single call; and after a baseline capture (of either variant),
    restoring an enumerated display straight away applies the very mode the
    OS reported for it at the capture. *)
Theorem restore_passes_captured_mode `{OS W} :
  (forall (monitor_name : string) (saved : DEVMODE) (s : St W),
      out (restore_monitor monitor_name saved s)
      = [ChangeCall monitor_name saved 0
           (fst (change_display_settings (world s) monitor_name saved 0))])
  /\ (forall (s : St W) (monitor_name : string) (current : DEVMODE),
        monitor_name ∈ names (enumerate (world s)) ->
        display_settings (world s) monitor_name = Some current ->
        change_args (out ((Gui.save_monitor_settings ;; restore_saved monitor_name) s))
          = [(monitor_name, current, 0)]
        /\ change_args (out ((Console.save_monitor_settings ;; restore_saved monitor_name) s))
          = [(monitor_name, current, 0)]).
Proof.
  split; [reflexivity|].
  intros s n current Hin Hmode.
  assert (Hsaved : captured (world s) (monitor_settings s) !! n = Some current).
  { rewrite captured_lookup, decide_True by exact Hin. exact Hmode. }
  split.
  - rewrite bind_out, gui_save_out, gui_save_state. unfold restore_saved.
    cbn [monitor_settings]. rewrite Hsaved. reflexivity.
  - rewrite bind_out, console_save_out, console_save_state. unfold restore_saved.
    cbn [monitor_settings]. rewrite Hsaved. reflexivity.
Qed.

Lemma restore_passes_captured_mode_witness :
  Sim.DISPLAY2 ∈ names (enumerate Sim.quiet_desk)
  /\ change_args (out ((Gui.save_monitor_settings ;; restore_saved Sim.DISPLAY2)
                        (fresh Sim.quiet_desk)))
     = [(Sim.DISPLAY2, Sim.mode 2560 1440, 0)].
Proof.
  assert (Hin : Sim.DISPLAY2 ∈ names (enumerate Sim.quiet_desk)).
  { cbn. right. left. }
  split; [exact Hin|].
  apply (proj2 restore_passes_captured_mode (fresh Sim.quiet_desk) Sim.DISPLAY2
           (Sim.mode 2560 1440) Hin eq_refl).
Defined.

(** C2, as amended: a baseline capture overwrites the stored mode of every
    display it enumerates with the mode the OS reports now (the last
    capture wins), and leaves the entries of all other identifiers as they
    were; this holds for both variants. *)
Theorem save_monitor_settings_overwrites `{OS W} (s : St W) (key : string) :
  monitor_settings (st (Console.save_monitor_settings s)) !! key
    = (if decide (key ∈ names (enumerate (world s)))
       then display_settings (world s) key
       else monitor_settings s !! key)
  /\ monitor_settings (st (Gui.save_monitor_settings s)) !! key
    = (if decide (key ∈ names (enumerate (world s)))
       then display_settings (world s) key
       else monitor_settings s !! key).
Proof.
  rewrite console_save_state, gui_save_state. cbn [monitor_settings].
  split; apply captured_lookup.
Qed.

(** C2, as stated, fails: on the desk whose side screen is retuned during
    a sleep, with no mode-change call in between, the second capture
    replaces the mode the first capture stored for the side screen. *)
Lemma first_capture_wins_counterexample :
  let first := Gui.save_monitor_settings (fresh Sim.retuned_desk) in
  let second := (sleep (2 # 1) ;; Gui.save_monitor_settings) (st first) in
  monitor_settings (st first) !! Sim.DISPLAY2 = Some (Sim.mode 2560 1440)
  /\ change_calls (out first ++ out second) = []
  /\ monitor_settings (st second) !! Sim.DISPLAY2 = Some (Sim.mode 1280 720)
  /\ Sim.mode 1280 720 <> Sim.mode 2560 1440.
Proof.
  cbn zeta. split; [|split; [|split]].
  - rewrite gui_save_state. cbn [monitor_settings]. rewrite captured_lookup. reflexivity.
  - rewrite bind_out, !gui_save_out. reflexivity.
  - rewrite bind_st, gui_save_state. cbn [monitor_settings]. rewrite captured_lookup.
    reflexivity.
  - discriminate.
Qed.

(** ** What a program emits *)

Section Emission.
Context {W : Type} `{OS W}.
Variable P : event -> Prop.

Lemma emits_ret {A} (a : A) : emits (W:=W) P (ret a).
Proof. intros s. constructor. Qed.

Lemma emits_bind {A B} (m : M W A) (k : A -> M W B) :
  emits P m -> (forall a, emits P (k a)) -> emits P (bind m k).
Proof. intros Hm Hk s. rewrite bind_out. apply Forall_app. split; [apply Hm | apply Hk]. Qed.

Lemma emits_for_each {A} (body : A -> M W unit) xs :
  (forall x, emits P (body x)) -> emits P (for_each body xs).
Proof.
  intros Hb. induction xs as [|x xs IH]; simpl.
  - apply emits_ret.
  - apply emits_bind; [apply Hb | intros _; exact IH].
Qed.

Lemma emits_if {A} (b : bool) (m1 m2 : M W A) :
  emits P m1 -> emits P m2 -> emits P (if b then m1 else m2).
Proof. destruct b; auto. Qed.

Lemma emits_print m : P (Printed m) -> emits (W:=W) P (print m).
Proof. intros HP s. repeat constructor. exact HP. Qed.

Lemma emits_emit m : P (Emitted m) -> emits (W:=W) P (emit m).
Proof. intros HP s. repeat constructor. exact HP. Qed.

Lemma emits_sleep d : P (SleepCall d) -> emits P (sleep d).
Proof. intros HP s. repeat constructor. exact HP. Qed.

Lemma emits_get_all_monitors : emits P get_all_monitors.
Proof. intros s. constructor. Qed.

Lemma emits_contains key : emits P (contains (W:=W) key).
Proof. intros s. constructor. Qed.

Hypothesis P_calls : forall n dm f code, P (ChangeCall n dm f code).

Lemma emits_disable_monitor n : emits P (disable_monitor n).
Proof. intros s. repeat constructor. apply P_calls. Qed.

Lemma emits_restore_saved n : emits P (restore_saved n).
Proof.
  intros s. unfold restore_saved.
  destruct (monitor_settings s !! n); repeat constructor. apply P_calls.
Qed.

End Emission.

(** Splits a program along its binds, loops and conditionals; the side
    conditions on single messages are closed by computation. *)
Ltac emits_step :=
  first
    [ apply emits_bind; [|intros ?]
    | apply emits_for_each; intros ?
    | apply emits_if
    | apply emits_ret
    | apply emits_get_all_monitors
    | apply emits_contains
    | apply emits_print; first [reflexivity | exact Logic.I]
    | apply emits_emit; first [reflexivity | exact Logic.I]
    | apply emits_sleep; first [reflexivity | exact Logic.I]
    | apply emits_disable_monitor; intros; reflexivity
    | apply emits_restore_saved; intros; reflexivity
    | progress unfold Console.disable_step, Console.restore_step, Console.exit_step,
        Gui.disable_step, Gui.restore_step, Gui.stop_step ].


Ltac solve_emits := repeat emits_step.
(** Turns a goal about the trace of [m s] into one about [m]. *)
Ltac by_emission :=
  match goal with
  | |- Forall ?P (out (?m ?s)) => refine ((_ : emits P m) s); solve_emits
  end.

Lemma existsb_none {A} (f : A -> bool) (l : list A) :
  Forall (fun x => f x = false) l -> existsb f l = false.
Proof.
  induction 1 as [|x l Hx _ IH]; [reflexivity|].
  cbn [existsb]. now rewrite Hx, IH.
Qed.

Lemma change_calls_none (l : list event) :
  Forall (fun e => match e with ChangeCall _ _ _ _ => False | _ => True end) l ->
  change_calls l = [].
Proof.
  induction 1 as [|x l Hx _ IH]; [reflexivity|].
  unfold change_calls in *. cbn [List.filter]. destruct x; try exact IH. contradiction.
Qed.

Lemma change_calls_app (l1 l2 : list event) :
  change_calls (l1 ++ l2) = change_calls l1 ++ change_calls l2.
Proof. unfold change_calls. induction l1 as [|x l1 IH]; [reflexivity|].
  cbn [app List.filter]. destruct x; cbn [app]; now rewrite IH. Qed.

Lemma change_args_app (l1 l2 : list event) :
  change_args (l1 ++ l2) = change_args l1 ++ change_args l2.
Proof. unfold change_args. apply flat_map_app. Qed.

Lemma change_names_app (l1 l2 : list event) :
  change_names (l1 ++ l2) = change_names l1 ++ change_names l2.
Proof. unfold change_names. now rewrite change_args_app, map_app. Qed.

(** ** Edge detection *)

Section EdgeDetection.
Context {W : Type} `{OS W}.

Lemma console_edge_step : edge_step console.
Proof.
  intros b l s Hflag. cbn [console step was_running disabled_flag val] in *.
  unfold Console.loop_body.
  destruct b, (Console.lol_was_running l) eqn:Hwas; cbn [andb negb].
  - (* still running *)
    repeat split; try reflexivity; cbn; congruence.
  - (* rising edge *)
    split; [reflexivity|]. split; [|repeat split; discriminate].
    apply existsb_none. by_emission.
  - (* falling edge *)
    split; [|split; [reflexivity | repeat split; discriminate]].
    apply existsb_none. by_emission.
  - (* still stopped *)
    repeat split; try reflexivity; cbn; congruence.
Qed.

Lemma gui_edge_step target : edge_step (gui target).
Proof.
  intros b l s Hflag. cbn [gui step was_running disabled_flag val] in *.
  unfold Gui.loop_body.
  destruct b, (Gui.process_was_running l) eqn:Hwas; cbn [andb negb].
  - repeat split; try reflexivity; cbn; congruence.
  - split; [reflexivity|]. split; [|repeat split; discriminate].
    apply existsb_none. by_emission.
  - split; [|split; [reflexivity | repeat split; discriminate]].
    apply existsb_none. by_emission.
  - repeat split; try reflexivity; cbn; congruence.
Qed.

Lemma rounds_edge_triggered (c : controller W) :
  edge_step c ->
  forall samples l s,
    was_running c l = disabled_flag c l ->
    edge_triggered (disabled_flag c) (was_running c l) (rounds c samples l s).
Proof.
  intros Hstep. induction samples as [|b bs IH]; intros l s Hflag; [exact Logic.I|].
  destruct (Hstep b l s Hflag) as (Hd & Hr & Hq & Hwas & Hdis).
  cbn [rounds edge_triggered events sample locals_after locals_before].
  repeat split; try assumption; try (apply Hq; assumption).
  rewrite <- Hwas at 1. apply IH. congruence.
Qed.

Lemma edge_triggered_passes {L} (flag : L -> bool) prev (rs : list (round W L)) :
  edge_triggered flag prev rs -> disable_passes rs = rising_edges prev (map sample rs).
Proof.
  revert prev. induction rs as [|r rs IH]; intros prev Hrs; [reflexivity|].
  destruct Hrs as (Hd & _ & _ & _ & Hrest).
  unfold disable_passes in *. cbn [List.filter map rising_edges].
  rewrite Hd. destruct (sample r && negb prev)%bool; cbn [length]; rewrite (IH _ Hrest);
    reflexivity.
Qed.

Lemma rounds_from_idle (c : controller W) :
  edge_step c ->
  forall samples l s,
    was_running c l = false -> disabled_flag c l = false ->
    edge_triggered (disabled_flag c) false (rounds c samples l s)
    /\ disable_passes (rounds c samples l s) = rising_edges false samples.
Proof.
  intros Hstep samples l s Hwas Hdis.
  assert (Hedge : edge_triggered (disabled_flag c) false (rounds c samples l s)).
  { rewrite <- Hwas. apply rounds_edge_triggered; [exact Hstep | congruence]. }
  split; [exact Hedge|].
  rewrite (edge_triggered_passes _ _ _ Hedge), rounds_samples. reflexivity.
Qed.

Lemma rising_edges_steady n : rising_edges true (replicate n true) = 0%nat.
Proof. induction n as [|n IH]; [reflexivity | exact IH]. Qed.

End EdgeDetection.

(** ** The snapshot map after start-up *)

Section Frame.
Context {W : Type} `{OS W}.

Lemma keeps_settings {A} (m : M W A) :
  (forall I : St W -> Prop, os_stable I -> preserves I m) ->
  forall s, monitor_settings (st (m s)) = monitor_settings s.
Proof.
  intros Hm s.
  apply (Hm (fun s' => monitor_settings s' = monitor_settings s)
            (settings_stable (monitor_settings s)) s eq_refl).
Qed.

Lemma poll_console_settings samples l (s : St W) :
  monitor_settings (st (poll console samples l s)) = monitor_settings s.
Proof.
  apply keeps_settings. intros I HI. apply poll_keeps.
  intros b l'. apply console_loop_body_keeps, HI.
Qed.

Lemma poll_gui_settings target samples l (s : St W) :
  monitor_settings (st (poll (gui target) samples l s)) = monitor_settings s.
Proof.
  apply keeps_settings. intros I HI. apply poll_keeps.
  intros b l'. apply gui_loop_body_keeps, HI.
Qed.

Lemma fresh_capture_lookup (w : W) key :
  captured w ∅ !! key
  = if decide (key ∈ names (enumerate w)) then display_settings w key else None.
Proof. rewrite captured_lookup. case_decide; [reflexivity | apply lookup_empty]. Qed.

End Frame.

(** C10: [disable_monitor], [restore_monitor], a loop round of either
    variant and either shutdown path leave [monitor_settings] as it is; the
    start-up of either variant leaves the map exactly as its one call of
    [save_monitor_settings] wrote it; so after any number of loop rounds
    every entry is the mode the OS reported for that display at start-up,
    and there is an entry for no other identifier. *)
Theorem monitor_settings_written_once `{OS W} :
  (forall n (s : St W), monitor_settings (st (disable_monitor n s)) = monitor_settings s)
  /\ (forall n saved (s : St W),
        monitor_settings (st (restore_monitor n saved s)) = monitor_settings s)
  /\ (forall b l (s : St W),
        monitor_settings (st (Console.loop_body b l s)) = monitor_settings s)
  /\ (forall b self (s : St W),
        monitor_settings (st (Gui.loop_body b self s)) = monitor_settings s)
  /\ (forall l (s : St W),
        monitor_settings (st (Console.on_keyboard_interrupt l s)) = monitor_settings s)
  /\ (forall self (s : St W), monitor_settings (st (Gui.stop self s)) = monitor_settings s)
  /\ (forall samples (w : W),
        let b := Console.startup (fresh w) in
        monitor_settings (st b)
          = monitor_settings (st (Console.save_monitor_settings (fresh w)))
        /\ forall key,
             monitor_settings (st (poll console samples (val b) (st b))) !! key
             = if decide (key ∈ names (enumerate w)) then display_settings w key else None)
  /\ (forall target samples (w : W),
        let b := Gui.startup target (fresh w) in
        monitor_settings (st b) = monitor_settings (st (Gui.save_monitor_settings (fresh w)))
        /\ forall key,
             monitor_settings (st (poll (gui target) samples (val b) (st b))) !! key
             = if decide (key ∈ names (enumerate w)) then display_settings w key else None).
Proof.
  repeat apply conj.
  - reflexivity.
  - reflexivity.
  - intros b l. apply keeps_settings. intros I HI. apply console_loop_body_keeps, HI.
  - intros b self. apply keeps_settings. intros I HI. apply gui_loop_body_keeps, HI.
  - intros l. apply keeps_settings. intros I HI. apply console_interrupt_keeps, HI.
  - intros self. apply keeps_settings. intros I HI. apply gui_stop_keeps, HI.
  - intros samples w. cbn zeta. rewrite console_startup_state, console_save_state.
    split; [reflexivity|]. intros key.
    rewrite poll_console_settings. apply fresh_capture_lookup.
  - intros target samples w. cbn zeta. rewrite gui_startup_state, gui_save_state.
    split; [reflexivity|]. intros key.
    rewrite poll_gui_settings. apply fresh_capture_lookup.
Qed.

(** ** Passes without retry *)

Section Passes.
Context {W : Type} `{OS W}.

(** A pass whose body decides its calls from the snapshot map and the
    monitor alone, and keeps the map, makes the calls of every monitor in
    list order. *)
Lemma pass_change_args (body : monitor -> M W unit)
    (calls : gmap string DEVMODE -> monitor -> list (string * DEVMODE * Z)) :
  (forall m s, change_args (out (body m s)) = calls (monitor_settings s) m) ->
  (forall m s, monitor_settings (st (body m s)) = monitor_settings s) ->
  forall l s, change_args (out (for_each body l s)) = flat_map (calls (monitor_settings s)) l.
Proof.
  intros Hcalls Hkeep. induction l as [|m l IH]; intros s; [reflexivity|].
  rewrite for_each_cons, bind_out, change_args_app, Hcalls, IH, Hkeep. reflexivity.
Qed.

Lemma saved_step_args (after : bool -> M W unit) (m : monitor) (s : St W) :
  (forall b s', change_args (out (after b s')) = []) ->
  change_args (out ((present <- contains (name m) ;;
                     if (present : bool)
                     then result <- restore_saved (name m) ;; after result
                     else ret tt) s))
  = match monitor_settings s !! name m with
    | Some saved => [(name m, saved, 0)]
    | None => []
    end.
Proof.
  intros Hafter. rewrite bind_out. cbn [contains val st out app].
  destruct (monitor_settings s !! name m) as [saved|] eqn:Hsaved.
  - rewrite bool_decide_eq_true_2 by eauto.
    rewrite bind_out, change_args_app, Hafter, app_nil_r.
    unfold restore_saved. rewrite Hsaved. reflexivity.
  - rewrite bool_decide_eq_false_2 by (intros [? ?]; discriminate). reflexivity.
Qed.

Lemma exit_step_args m (s : St W) :
  change_args (out (Console.exit_step m s))
  = match monitor_settings s !! name m with
    | Some saved => [(name m, saved, 0)]
    | None => []
    end.
Proof.
  apply (saved_step_args (fun _ => print (RestoredOnExit (description m)))).
  reflexivity.
Qed.

Lemma stop_step_args m (s : St W) :
  change_args (out (Gui.stop_step m s))
  = match monitor_settings s !! name m with
    | Some saved => [(name m, saved, 0)]
    | None => []
    end.
Proof. apply (saved_step_args (fun _ => ret tt)). reflexivity. Qed.

Lemma gui_restore_step_args m (s : St W) :
  change_args (out (Gui.restore_step m s))
  = match monitor_settings s !! name m with
    | Some saved => [(name m, saved, 0)]
    | None => []
    end.
Proof.
  apply (saved_step_args
           (fun result : bool => if result then emit (Restored (description m))
                                 else emit (FailedToRestore (description m)))).
  intros [] s'; reflexivity.
Qed.

Lemma gui_disable_step_args m (s : St W) :
  change_args (out (Gui.disable_step m s)) = [(name m, disable_devmode, 0)].
Proof.
  unfold Gui.disable_step. rewrite bind_out, change_args_app. cbn beta.
  destruct (val (disable_monitor (name m) s)); reflexivity.
Qed.

Lemma exit_pass_args l (s : St W) :
  change_args (out (for_each Console.exit_step l s)) = restore_targets (monitor_settings s) l.
Proof.
  apply (pass_change_args Console.exit_step
           (fun ms m => match ms !! name m with
                        | Some saved => [(name m, saved, 0)]
                        | None => []
                        end)).
  - apply exit_step_args.
  - intros m. apply keeps_settings. intros I HI. apply console_exit_step_keeps, HI.
Qed.

Lemma stop_pass_args l (s : St W) :
  change_args (out (for_each Gui.stop_step l s)) = restore_targets (monitor_settings s) l.
Proof.
  apply (pass_change_args Gui.stop_step
           (fun ms m => match ms !! name m with
                        | Some saved => [(name m, saved, 0)]
                        | None => []
                        end)).
  - apply stop_step_args.
  - intros m. apply keeps_settings. intros I HI. apply gui_stop_step_keeps, HI.
Qed.

Lemma gui_restore_pass_args l (s : St W) :
  change_args (out (for_each Gui.restore_step l s)) = restore_targets (monitor_settings s) l.
Proof.
  apply (pass_change_args Gui.restore_step
           (fun ms m => match ms !! name m with
                        | Some saved => [(name m, saved, 0)]
                        | None => []
                        end)).
  - apply gui_restore_step_args.
  - intros m. apply keeps_settings. intros I HI. apply gui_restore_step_keeps, HI.
Qed.

Lemma gui_disable_pass_args l (s : St W) :
  change_args (out (for_each Gui.disable_step l s)) = disable_targets l.
Proof.
  pose proof (pass_change_args Gui.disable_step
                (fun _ m => [(name m, disable_devmode, 0)])) as Hpass.
  rewrite Hpass.
  - unfold disable_targets. induction l as [|m l IH]; [reflexivity|].
    cbn [flat_map map app]. now rewrite IH.
  - intros m s'. apply gui_disable_step_args.
  - intros m. apply keeps_settings. intros I HI. apply gui_disable_step_keeps, HI.
Qed.

Lemma restore_targets_names (ms : gmap string DEVMODE) (l : list monitor) :
  Forall (fun m => is_Some (ms !! name m)) l ->
  map (fun a => fst (fst a)) (restore_targets ms l) = names l.
Proof.
  induction 1 as [|m l [saved Hm] _ IH]; [reflexivity|].
  unfold restore_targets, names in *. cbn [flat_map map]. rewrite Hm. cbn [app map fst].
  now rewrite IH.
Qed.

Lemma secondary_of_subset (l : list monitor) m : m ∈ Gui.secondary_of l -> m ∈ l.
Proof.
  unfold Gui.secondary_of. rewrite !list_elem_of_In, filter_In. tauto.
Qed.

Lemma poll_console_secondary samples l (s : St W) :
  Console.secondary_monitors (val (poll console samples l s)) = Console.secondary_monitors l.
Proof.
  revert l s. induction samples as [|b bs IH]; intros l s; [reflexivity|].
  cbn [poll]. rewrite bind_val, IH. cbn [console step]. unfold Console.loop_body.
  destruct (b && negb (Console.lol_was_running l))%bool;
    [| destruct (negb b && Console.lol_was_running l)%bool]; reflexivity.
Qed.

Lemma console_interrupt_args l (s : St W) :
  change_args (out (Console.on_keyboard_interrupt l s))
  = if Console.monitors_disabled l
    then restore_targets (monitor_settings s) (Console.secondary_monitors l)
    else [].
Proof.
  unfold Console.on_keyboard_interrupt.
  rewrite !bind_out, !change_args_app. cbn [print out st change_args flat_map app].
  destruct (Console.monitors_disabled l); [|reflexivity].
  rewrite bind_out, change_args_app. cbn [print out st change_args flat_map app].
  rewrite exit_pass_args, app_nil_r. reflexivity.
Qed.

Lemma gui_stop_args self (s : St W) :
  change_args (out (Gui.stop self s))
  = if Gui.monitors_disabled self
    then restore_targets (monitor_settings s) (Gui.secondary_of (enumerate (world s)))
    else [].
Proof.
  unfold Gui.stop. cbn [Gui.monitors_disabled].
  rewrite !bind_out, !change_args_app.
  destruct (Gui.monitors_disabled self); [|reflexivity].
  rewrite bind_out, change_args_app. cbn [get_all_monitors out st val ret change_args
    flat_map app].
  rewrite stop_pass_args, app_nil_r. reflexivity.
Qed.

End Passes.

(** ** Shutdown *)

(** C6, as amended: on shutdown with [monitors_disabled] set, the console's
    interrupt handler and the tray application's [stop] make one restore
    call, with the stored mode, for every secondary display that has an
    entry in [monitor_settings], and none for a secondary display without
    one; with the flag clear they make no mode-change call.  The console
    goes through the secondaries it listed at start-up, all of which have
    an entry, so there it restores every one of them; [stop] goes through
    the secondaries it enumerates at that moment. *)
Theorem shutdown_restores_saved_secondaries `{OS W} :
  (forall l (s : St W),
      change_args (out (Console.on_keyboard_interrupt l s))
      = if Console.monitors_disabled l
        then restore_targets (monitor_settings s) (Console.secondary_monitors l)
        else [])
  /\ (forall self (s : St W),
      change_args (out (Gui.stop self s))
      = if Gui.monitors_disabled self
        then restore_targets (monitor_settings s) (Gui.secondary_of (enumerate (world s)))
        else [])
  /\ (forall samples (w : W),
      let b := Console.startup (fresh w) in
      let r := poll console samples (val b) (st b) in
      change_names (out (Console.on_keyboard_interrupt (val r) (st r)))
      = if Console.monitors_disabled (val r)
        then names (Gui.secondary_of (enumerate w))
        else []).
Proof.
  split; [exact console_interrupt_args|]. split; [exact gui_stop_args|].
  intros samples w b r. unfold change_names. rewrite console_interrupt_args.
  destruct (Console.monitors_disabled (val r)); [|reflexivity].
  subst r. rewrite poll_console_secondary, poll_console_settings.
  subst b. rewrite console_startup_state.
  destruct (console_startup_val (fresh w)) as (-> & _ & _).
  cbn [monitor_settings fresh world].
  apply restore_targets_names. rewrite Forall_forall. intros m Hm.
  apply captured_dom. unfold names. apply list_elem_of_fmap.
  exists m. split; [reflexivity | apply secondary_of_subset, Hm].
Qed.

(** C6, as stated, fails in the tray application: the projector is plugged
    in and the game started during the first sleep, the second round
    disables both secondary screens, and [stop], called with
    [monitors_disabled] set, restores the side screen only. *)
Lemma gui_stop_skips_unsaved_display :
  let b := Gui.startup "game.exe" (fresh Sim.hotplug_desk) in
  let r := poll (gui "game.exe") [false; true] (val b) (st b) in
  Gui.monitors_disabled (val r) = true
  /\ change_names (out r) = [Sim.DISPLAY2; Sim.DISPLAY3]
  /\ names (Gui.secondary_of (enumerate (world (st r)))) = [Sim.DISPLAY2; Sim.DISPLAY3]
  /\ change_names (out (Gui.stop (val r) (st r))) = [Sim.DISPLAY2].
Proof. vm_compute. repeat split. Qed.

(** ** Retries *)

Section Retries.
Context {W : Type} `{OS W}.

Lemma console_disable_step_out m (s : St W) :
  let first := change_display_settings (world s) (name m) disable_devmode 0 in
  let second := change_display_settings (after_sleep (snd first) (1 # 2)) (name m)
                  disable_devmode 0 in
  out (Console.disable_step m s)
  = if Z.eqb (fst first) DISP_CHANGE_SUCCESSFUL
    then [ Printed (AttemptDisable (description m));
           ChangeCall (name m) disable_devmode 0 (fst first);
           Printed (DisableOk (description m)) ]
    else [ Printed (AttemptDisable (description m));
           ChangeCall (name m) disable_devmode 0 (fst first);
           Printed (DisableFailed (description m));
           SleepCall (1 # 2);
           ChangeCall (name m) disable_devmode 0 (fst second) ]
         ++ (if Z.eqb (fst second) DISP_CHANGE_SUCCESSFUL then [Printed RetryOk] else []).
Proof.
  cbn zeta. unfold Console.disable_step, bind, disable_monitor, bind.
  cbn [print ChangeDisplaySettingsEx ret val st out app world monitor_settings].
  destruct (Z.eqb (fst (change_display_settings (world s) (name m) disable_devmode 0))
              DISP_CHANGE_SUCCESSFUL); [reflexivity|].
  cbn [print sleep ChangeDisplaySettingsEx ret val st out app world monitor_settings].
  destruct (Z.eqb _ DISP_CHANGE_SUCCESSFUL); reflexivity.
Qed.

Lemma console_restore_step_out m (s : St W) :
  out (Console.restore_step m s)
  = match monitor_settings s !! name m with
    | None => []
    | Some saved =>
        let first := change_display_settings (world s) (name m) saved 0 in
        let second := change_display_settings (after_sleep (snd first) (1 # 2)) (name m)
                        saved 0 in
        if Z.eqb (fst first) DISP_CHANGE_SUCCESSFUL
        then [ Printed (Restoring (description m));
               ChangeCall (name m) saved 0 (fst first);
               Printed RestoreOk ]
        else [ Printed (Restoring (description m));
               ChangeCall (name m) saved 0 (fst first);
               Printed RestoreFailed;
               SleepCall (1 # 2);
               ChangeCall (name m) saved 0 (fst second) ]
             ++ (if Z.eqb (fst second) DISP_CHANGE_SUCCESSFUL then [Printed RetryOk] else [])
    end.
Proof.
  unfold Console.restore_step. rewrite bind_out. cbn [contains val st out app].
  destruct (monitor_settings s !! name m) as [saved|] eqn:Hsaved.
  - rewrite bool_decide_eq_true_2 by eauto.
    unfold bind, restore_saved. cbn [print val st out app]. rewrite Hsaved.
    unfold restore_monitor, bind.
    cbn [print ChangeDisplaySettingsEx ret val st out app world monitor_settings].
    destruct (Z.eqb (fst (change_display_settings (world s) (name m) saved 0))
                DISP_CHANGE_SUCCESSFUL); [reflexivity|].
    cbn [print sleep ChangeDisplaySettingsEx ret val st out app world monitor_settings].
    rewrite Hsaved.
    cbn [print sleep ChangeDisplaySettingsEx ret val st out app world monitor_settings].
    destruct (Z.eqb _ DISP_CHANGE_SUCCESSFUL); reflexivity.
  - rewrite bool_decide_eq_false_2 by (intros [? ?]; discriminate). reflexivity.
Qed.

Lemma gui_disable_step_out m (s : St W) :
  let first := change_display_settings (world s) (name m) disable_devmode 0 in
  out (Gui.disable_step m s)
  = [ ChangeCall (name m) disable_devmode 0 (fst first);
      Emitted (if Z.eqb (fst first) DISP_CHANGE_SUCCESSFUL
               then Disabled (description m)
               else FailedToDisable (description m)) ].
Proof.
  cbn zeta. unfold Gui.disable_step, bind, disable_monitor, bind.
  cbn [ChangeDisplaySettingsEx ret val st out app world monitor_settings].
  destruct (Z.eqb _ DISP_CHANGE_SUCCESSFUL); reflexivity.
Qed.

Lemma gui_restore_step_out m (s : St W) :
  out (Gui.restore_step m s)
  = match monitor_settings s !! name m with
    | None => []
    | Some saved =>
        let first := change_display_settings (world s) (name m) saved 0 in
        [ ChangeCall (name m) saved 0 (fst first);
          Emitted (if Z.eqb (fst first) DISP_CHANGE_SUCCESSFUL
                   then Restored (description m)
                   else FailedToRestore (description m)) ]
    end.
Proof.
  unfold Gui.restore_step. rewrite bind_out. cbn [contains val st out app].
  destruct (monitor_settings s !! name m) as [saved|] eqn:Hsaved.
  - rewrite bool_decide_eq_true_2 by eauto.
    unfold bind, restore_saved. rewrite Hsaved.
    unfold restore_monitor, bind.
    cbn [ChangeDisplaySettingsEx ret val st out app world monitor_settings].
    destruct (Z.eqb _ DISP_CHANGE_SUCCESSFUL); reflexivity.
  - rewrite bool_decide_eq_false_2 by (intros [? ?]; discriminate). reflexivity.
Qed.

Lemma console_exit_step_out m (s : St W) :
  out (Console.exit_step m s)
  = match monitor_settings s !! name m with
    | None => []
    | Some saved =>
        [ ChangeCall (name m) saved 0
            (fst (change_display_settings (world s) (name m) saved 0));
          Printed (RestoredOnExit (description m)) ]
    end.
Proof.
  unfold Console.exit_step. rewrite bind_out. cbn [contains val st out app].
  destruct (monitor_settings s !! name m) as [saved|] eqn:Hsaved.
  - rewrite bool_decide_eq_true_2 by eauto.
    unfold bind, restore_saved. rewrite Hsaved. reflexivity.
  - rewrite bool_decide_eq_false_2 by (intros [? ?]; discriminate). reflexivity.
Qed.

(** At most [k] mode-change calls per monitor in a pass whose body makes
    at most [k]. *)
Lemma pass_calls_at_most (body : monitor -> M W unit) (k : nat) :
  (forall m s, (length (change_calls (out (body m s))) <= k)%nat) ->
  forall l s, (length (change_calls (out (for_each body l s))) <= k * length l)%nat.
Proof.
  intros Hbody. induction l as [|m l IH]; intros s.
  - cbn. lia.
  - rewrite for_each_cons, bind_out, change_calls_app, length_app. cbn [length].
    specialize (Hbody m s). specialize (IH (st (body m s))). lia.
Qed.

Lemma console_disable_step_calls m (s : St W) :
  (length (change_calls (out (Console.disable_step m s))) <= 2)%nat.
Proof.
  rewrite console_disable_step_out. cbn zeta.
  repeat (destruct (Z.eqb _ DISP_CHANGE_SUCCESSFUL)); cbn; lia.
Qed.

Lemma console_restore_step_calls m (s : St W) :
  (length (change_calls (out (Console.restore_step m s))) <= 2)%nat.
Proof.
  rewrite console_restore_step_out.
  destruct (monitor_settings s !! name m); cbn zeta; [|cbn; lia].
  repeat (destruct (Z.eqb _ DISP_CHANGE_SUCCESSFUL)); cbn; lia.
Qed.

End Retries.

(** C3, as amended.  In the console's loop, a display whose disable or
    restore call returns non-success is reported as failed, then, after a
    sleep of 0.5 s, the same call is made once more; nothing further is
    reported when the retry fails, and the pass goes on either way; a
    successful first call is not repeated.  The tray application and the
    console's interrupt handler make one call per display and never retry
    (the tray application reports the failure).  No pass makes more than
    two calls per display it goes through. *)
Theorem retry_policy `{OS W} :
  (forall m (s : St W),
      let first := change_display_settings (world s) (name m) disable_devmode 0 in
      let second := change_display_settings (after_sleep (snd first) (1 # 2)) (name m)
                      disable_devmode 0 in
      out (Console.disable_step m s)
      = if Z.eqb (fst first) DISP_CHANGE_SUCCESSFUL
        then [ Printed (AttemptDisable (description m));
               ChangeCall (name m) disable_devmode 0 (fst first);
               Printed (DisableOk (description m)) ]
        else [ Printed (AttemptDisable (description m));
               ChangeCall (name m) disable_devmode 0 (fst first);
               Printed (DisableFailed (description m));
               SleepCall (1 # 2);
               ChangeCall (name m) disable_devmode 0 (fst second) ]
             ++ (if Z.eqb (fst second) DISP_CHANGE_SUCCESSFUL then [Printed RetryOk] else []))
  /\ (forall m (s : St W),
      out (Console.restore_step m s)
      = match monitor_settings s !! name m with
        | None => []
        | Some saved =>
            let first := change_display_settings (world s) (name m) saved 0 in
            let second := change_display_settings (after_sleep (snd first) (1 # 2)) (name m)
                            saved 0 in
            if Z.eqb (fst first) DISP_CHANGE_SUCCESSFUL
            then [ Printed (Restoring (description m));
                   ChangeCall (name m) saved 0 (fst first);
                   Printed RestoreOk ]
            else [ Printed (Restoring (description m));
                   ChangeCall (name m) saved 0 (fst first);
                   Printed RestoreFailed;
                   SleepCall (1 # 2);
                   ChangeCall (name m) saved 0 (fst second) ]
                 ++ (if Z.eqb (fst second) DISP_CHANGE_SUCCESSFUL
                     then [Printed RetryOk] else [])
        end)
  /\ (forall m (s : St W),
      out (Console.exit_step m s)
      = match monitor_settings s !! name m with
        | None => []
        | Some saved =>
            [ ChangeCall (name m) saved 0
                (fst (change_display_settings (world s) (name m) saved 0));
              Printed (RestoredOnExit (description m)) ]
        end)
  /\ (forall m (s : St W),
      let first := change_display_settings (world s) (name m) disable_devmode 0 in
      out (Gui.disable_step m s)
      = [ ChangeCall (name m) disable_devmode 0 (fst first);
          Emitted (if Z.eqb (fst first) DISP_CHANGE_SUCCESSFUL
                   then Disabled (description m)
                   else FailedToDisable (description m)) ])
  /\ (forall m (s : St W),
      out (Gui.restore_step m s)
      = match monitor_settings s !! name m with
        | None => []
        | Some saved =>
            let first := change_display_settings (world s) (name m) saved 0 in
            [ ChangeCall (name m) saved 0 (fst first);
              Emitted (if Z.eqb (fst first) DISP_CHANGE_SUCCESSFUL
                       then Restored (description m)
                       else FailedToRestore (description m)) ]
        end)
  /\ (forall l (s : St W),
      (length (change_calls (out (for_each Console.disable_step l s))) <= 2 * length l)%nat
      /\ (length (change_calls (out (for_each Console.restore_step l s))) <= 2 * length l)%nat
      /\ length (change_args (out (for_each Gui.disable_step l s))) = length l
      /\ (length (change_args (out (for_each Gui.restore_step l s))) <= length l)%nat
      /\ (length (change_args (out (for_each Gui.stop_step l s))) <= length l)%nat
      /\ (length (change_args (out (for_each Console.exit_step l s))) <= length l)%nat).
Proof.
  assert (Hrestore : forall ms (l : list monitor),
             (length (restore_targets ms l) <= length l)%nat).
  { intros ms l. induction l as [|m l IH]; [reflexivity|].
    unfold restore_targets in *. cbn [flat_map]. rewrite length_app. cbn [length].
    destruct (ms !! name m); cbn [length]; lia. }
  repeat apply conj.
  - apply console_disable_step_out.
  - apply console_restore_step_out.
  - apply console_exit_step_out.
  - apply gui_disable_step_out.
  - apply gui_restore_step_out.
  - intros l s. repeat apply conj.
    + apply pass_calls_at_most, console_disable_step_calls.
    + apply pass_calls_at_most, console_restore_step_calls.
    + rewrite gui_disable_pass_args. unfold disable_targets. apply length_map.
    + rewrite gui_restore_pass_args. apply Hrestore.
    + rewrite stop_pass_args. apply Hrestore.
    + rewrite exit_pass_args. apply Hrestore.
Qed.

(** C3, as stated, fails in the tray application: on the desk whose first
    mode-change call fails, the disable pass makes that one failing call
    for the side screen, reports it, and does not try again. *)
Lemma gui_does_not_retry :
  let b := Gui.startup "game.exe" (fresh Sim.stubborn_desk) in
  out (Gui.loop_body true (val b) (st b))
  = [ Emitted ProcessDetected;
      ChangeCall Sim.DISPLAY2 disable_devmode 0 (-1);
      Emitted (FailedToDisable "Side screen");
      Emitted MonitoringActive;
      SleepCall (2 # 1) ].
Proof. vm_compute. reflexivity. Qed.

(** ** Which displays a round acts on *)

Section RoundCalls.
Context {W : Type} `{OS W}.

Lemma change_args_none (l : list event) : Forall not_a_call l -> change_args l = [].
Proof.
  induction 1 as [|x l Hx _ IH]; [reflexivity|].
  unfold change_args in *. cbn [flat_map]. rewrite IH.
  destruct x; try reflexivity. contradiction.
Qed.

Lemma silent_change_args {A} (m : M W A) s : emits not_a_call m -> change_args (out (m s)) = [].
Proof. intros Hm. apply change_args_none, Hm. Qed.

Lemma gui_round_args b self (s : St W) :
  change_args (out (Gui.loop_body b self s))
  = if (b && negb (Gui.process_was_running self))%bool
    then disable_targets (Gui.secondary_of (enumerate (world s)))
    else if (negb b && Gui.process_was_running self)%bool
    then restore_targets (monitor_settings s) (Gui.secondary_of (enumerate (world s)))
    else [].
Proof.
  unfold Gui.loop_body. rewrite bind_out, change_args_app.
  rewrite (silent_change_args (sleep (2 # 1) ;; ret _)) by solve_emits.
  rewrite app_nil_r.
  destruct (b && negb (Gui.process_was_running self))%bool;
    [| destruct (negb b && Gui.process_was_running self)%bool; [|reflexivity]].
  - rewrite !bind_out, !change_args_app.
    cbn [emit get_all_monitors val st out change_args flat_map app].
    rewrite gui_disable_pass_args.
    try rewrite (silent_change_args (ret _)) by solve_emits.
    try rewrite (silent_change_args (emit _)) by solve_emits.
    now rewrite ?app_nil_r.
  - rewrite !bind_out, !change_args_app.
    cbn [emit get_all_monitors val st out change_args flat_map app].
    rewrite gui_restore_pass_args.
    try rewrite (silent_change_args (ret _)) by solve_emits.
    try rewrite (silent_change_args (emit _)) by solve_emits.
    now rewrite ?app_nil_r.
Qed.

(** Where a console round starts its pass: the state [s1] after the
    countdown (rising edge) or the state the round started in. *)
Lemma console_round_args b l (s : St W) :
  exists s1,
    monitor_settings s1 = monitor_settings s
    /\ (forall I : St W -> Prop, os_stable I -> I s -> I s1)
    /\ change_args (out (Console.loop_body b l s))
       = if (b && negb (Console.lol_was_running l))%bool
         then change_args (out (for_each Console.disable_step (Console.secondary_monitors l) s1))
         else if (negb b && Console.lol_was_running l)%bool
         then change_args (out (for_each Console.restore_step (Console.secondary_monitors l) s1))
         else [].
Proof.
  unfold Console.loop_body.
  destruct (b && negb (Console.lol_was_running l))%bool;
    [| destruct (negb b && Console.lol_was_running l)%bool].
  - set (countdown := for_each (fun i => print (Countdown i) ;; sleep (1 # 1))
                        [5; 4; 3; 2; 1]%nat).
    exists (st (countdown s)). split; [reflexivity|]. split.
    + intros I HI Hs. subst countdown.
      refine ((_ : preserves I _) s Hs). solve_keep.
    + rewrite bind_out, change_args_app.
      rewrite (silent_change_args (sleep (2 # 1) ;; ret _)) by solve_emits.
      rewrite !bind_out, !change_args_app.
      cbn [print val st out change_args flat_map app].
      rewrite (silent_change_args countdown) by (subst countdown; solve_emits).
      now rewrite ?app_nil_r.
  - exists s. split; [reflexivity|]. split; [auto|].
    rewrite bind_out, change_args_app.
    rewrite (silent_change_args (sleep (2 # 1) ;; ret _)) by solve_emits.
    rewrite !bind_out, !change_args_app.
    cbn [print val st out change_args flat_map app].
    now rewrite ?app_nil_r.
  - exists s. split; [reflexivity|]. split; [auto|]. reflexivity.
Qed.

(** A pass whose body calls its own monitor only, when [allowed], reaches
    exactly the allowed monitors of the list. *)
Lemma pass_change_names (body : monitor -> M W unit)
    (allowed : gmap string DEVMODE -> monitor -> Prop) :
  (forall m s n, n ∈ change_names (out (body m s))
                 <-> n = name m /\ allowed (monitor_settings s) m) ->
  (forall m s, monitor_settings (st (body m s)) = monitor_settings s) ->
  forall l s n,
    n ∈ change_names (out (for_each body l s))
    <-> exists m, m ∈ l /\ name m = n /\ allowed (monitor_settings s) m.
Proof.
  intros Hbody Hkeep. induction l as [|m l IH]; intros s n.
  - cbn. split; [intros Hin; inversion Hin | intros (m & Hm & _); inversion Hm].
  - rewrite for_each_cons, bind_out, change_names_app, elem_of_app, Hbody, IH, Hkeep.
    split.
    + intros [[-> Hm] | (m' & Hin & Hname & Hm')].
      * exists m. split; [left | auto].
      * exists m'. split; [right; exact Hin | auto].
    + intros (m' & Hin & Hname & Hm').
      apply elem_of_cons in Hin as [-> | Hin]; [left; auto | right; eauto].
Qed.

Lemma console_disable_step_names m (s : St W) n :
  n ∈ change_names (out (Console.disable_step m s)) <-> n = name m /\ True.
Proof.
  rewrite console_disable_step_out. cbn zeta.
  repeat (destruct (Z.eqb _ DISP_CHANGE_SUCCESSFUL)); cbn;
    rewrite ?elem_of_cons, ?elem_of_nil; tauto.
Qed.

Lemma console_restore_step_names m (s : St W) n :
  n ∈ change_names (out (Console.restore_step m s))
  <-> n = name m /\ is_Some (monitor_settings s !! name m).
Proof.
  rewrite console_restore_step_out.
  destruct (monitor_settings s !! name m) as [saved|]; cbn zeta.
  - repeat (destruct (Z.eqb _ DISP_CHANGE_SUCCESSFUL)); cbn;
      rewrite ?elem_of_cons, ?elem_of_nil; intuition eauto.
  - cbn. rewrite elem_of_nil. split; [tauto | intros [_ [? ?]]; discriminate].
Qed.

Lemma console_disable_pass_names l (s : St W) n :
  n ∈ change_names (out (for_each Console.disable_step l s)) <-> n ∈ names l.
Proof.
  rewrite (pass_change_names Console.disable_step (fun _ _ => True)).
  - unfold names. rewrite list_elem_of_fmap. split.
    + intros (m & Hm & Hn & _). eauto.
    + intros (m & Hn & Hm). eauto.
  - apply console_disable_step_names.
  - intros m. apply keeps_settings. intros I HI. apply console_disable_step_keeps, HI.
Qed.

Lemma console_restore_pass_names l (s : St W) n :
  n ∈ change_names (out (for_each Console.restore_step l s))
  <-> n ∈ names l /\ is_Some (monitor_settings s !! n).
Proof.
  rewrite (pass_change_names Console.restore_step
             (fun ms m => is_Some (ms !! name m))).
  - unfold names. rewrite list_elem_of_fmap. split.
    + intros (m & Hm & <- & Hsome). eauto.
    + intros [(m & -> & Hm) Hsome]. eauto.
  - apply console_restore_step_names.
  - intros m. apply keeps_settings. intros I HI. apply console_restore_step_keeps, HI.
Qed.

Lemma console_round_names b l (s : St W) n :
  n ∈ change_names (out (Console.loop_body b l s))
  <-> if (b && negb (Console.lol_was_running l))%bool
      then n ∈ names (Console.secondary_monitors l)
      else if (negb b && Console.lol_was_running l)%bool
      then n ∈ names (Console.secondary_monitors l) /\ is_Some (monitor_settings s !! n)
      else False.
Proof.
  destruct (console_round_args b l s) as (s1 & Hms & _ & Hargs).
  unfold change_names at 1. rewrite Hargs.
  destruct (b && negb (Console.lol_was_running l))%bool;
    [| destruct (negb b && Console.lol_was_running l)%bool].
  - apply console_disable_pass_names.
  - rewrite <- Hms. apply console_restore_pass_names.
  - cbn. apply elem_of_nil.
Qed.

End RoundCalls.

(** C8, as amended: on a rising edge the tray application enumerates the
    displays at that moment and calls disable once for each non-primary
    display of that enumeration, in order; the console enumerates once, at
    start-up, and on every rising edge goes through the non-primary
    displays of that first enumeration. *)
Theorem disable_pass_targets `{OS W} :
  (forall b self (s : St W),
      change_args (out (Gui.loop_body b self s))
      = if (b && negb (Gui.process_was_running self))%bool
        then disable_targets (Gui.secondary_of (enumerate (world s)))
        else if (negb b && Gui.process_was_running self)%bool
        then restore_targets (monitor_settings s) (Gui.secondary_of (enumerate (world s)))
        else [])
  /\ (forall b l (s : St W) n,
      n ∈ change_names (out (Console.loop_body b l s))
      <-> if (b && negb (Console.lol_was_running l))%bool
          then n ∈ names (Console.secondary_monitors l)
          else if (negb b && Console.lol_was_running l)%bool
          then n ∈ names (Console.secondary_monitors l)
               /\ is_Some (monitor_settings s !! n)
          else False)
  /\ (forall samples (w : W),
      let b := Console.startup (fresh w) in
      Console.secondary_monitors (val (poll console samples (val b) (st b)))
      = Gui.secondary_of (enumerate w)).
Proof.
  split; [exact gui_round_args|]. split; [exact console_round_names|].
  intros samples w b. rewrite poll_console_secondary. subst b.
  apply (console_startup_val (fresh w)).
Qed.

(** C8, as stated, fails in the console: the projector is plugged in
    during the first sleep; on the rising edge of the second round the
    enumeration of that moment lists two secondary screens, and the
    disable pass acts on the side screen only. *)
Lemma console_reuses_startup_list :
  let b := Console.startup (fresh Sim.hotplug_desk) in
  let r1 := Console.loop_body false (val b) (st b) in
  let r2 := Console.loop_body true (val r1) (st r1) in
  disable_pass_fired (out r2) = true
  /\ names (Gui.secondary_of (enumerate (world (st r1)))) = [Sim.DISPLAY2; Sim.DISPLAY3]
  /\ change_names (out r2) = [Sim.DISPLAY2].
Proof. vm_compute. repeat split. Qed.

(** ** The disabled displays and the snapshot map *)

Section DisabledSet.
Context {W : Type} `{OS W}.



Lemma console_step_secondary b l (s : St W) :
  Console.secondary_monitors (val (Console.loop_body b l s)) = Console.secondary_monitors l.
Proof.
  unfold Console.loop_body.
  destruct (b && negb (Console.lol_was_running l))%bool;
    [| destruct (negb b && Console.lol_was_running l)%bool]; reflexivity.
Qed.


Lemma disable_targets_names (l : list monitor) :
  map (fun a => fst (fst a)) (disable_targets l) = names l.
Proof. unfold disable_targets, names. rewrite map_map. reflexivity. Qed.

Lemma restore_targets_within (ms : gmap string DEVMODE) (l : list monitor) n :
  n ∈ map (fun a => fst (fst a)) (restore_targets ms l) -> n ∈ names l.
Proof.
  unfold restore_targets, names. induction l as [|m l IH]; cbn [flat_map map]; [auto|].
  rewrite map_app, elem_of_app. intros [Hm | Hl].
  - destruct (ms !! name m); cbn in Hm.
    + apply elem_of_cons in Hm as [-> | Hnil]; [left | inversion Hnil].
    + inversion Hm.
  - right. apply IH, Hl.
Qed.



End DisabledSet.






(** ** The two variants side by side *)

Section Agreement.
Context {W : Type} `{OS W}.

Lemma classify_silent i monitors primary secondary :
  emits (W:=W) not_a_call (Console.classify i monitors primary secondary).
Proof.
  revert i primary secondary.
  induction monitors as [|m ms IH]; intros i primary secondary; cbn [Console.classify].
  - apply emits_ret.
  - apply emits_bind; [apply emits_print; exact Logic.I|].
    intros _. destruct (is_primary m); apply IH.
Qed.

Lemma console_startup_silent (s : St W) : change_args (out (Console.startup s)) = [].
Proof.
  apply silent_change_args. unfold Console.startup.
  repeat first
    [ apply classify_silent
    | intros s'; rewrite console_save_out; repeat constructor
    | match goal with
      | |- emits _ (match ?x with [] => _ | _ :: _ => _ end) => destruct x
      end
    | emits_step ].
Qed.






(** *** The console when its calls succeed *)








(** *** The tray application when it sees the start-up displays *)






End Agreement.

(** ** Edge detection, with the passes *)

Section EdgePasses.
Context {W : Type} `{OS W}.

Lemma pass_of_nil retries : pass_of retries [] [].
Proof. exists []. repeat split; constructor. Qed.

Lemma pass_of_cons retries k a targets calls :
  (1 <= k <= S retries)%nat ->
  pass_of retries targets calls ->
  pass_of retries (a :: targets) (replicate k a ++ calls).
Proof.
  intros Hk (ks & Hlen & Hks & ->). exists (k :: ks).
  split; [cbn; now rewrite Hlen|]. split; [constructor; assumption | reflexivity].
Qed.

Lemma pass_of_exact retries targets : pass_of retries targets targets.
Proof.
  induction targets as [|a targets IH]; [apply pass_of_nil|].
  apply (pass_of_cons retries 1 a targets targets); [lia | exact IH].
Qed.

Lemma console_disable_step_replicate m (s : St W) :
  exists k, (1 <= k <= 2)%nat
            /\ change_args (out (Console.disable_step m s))
               = replicate k (name m, disable_devmode, 0).
Proof.
  rewrite console_disable_step_out. cbn zeta.
  destruct (Z.eqb _ DISP_CHANGE_SUCCESSFUL).
  - exists 1%nat. split; [lia | reflexivity].
  - exists 2%nat. split; [lia|]. destruct (Z.eqb _ DISP_CHANGE_SUCCESSFUL); reflexivity.
Qed.

Lemma console_restore_step_replicate m saved (s : St W) :
  monitor_settings s !! name m = Some saved ->
  exists k, (1 <= k <= 2)%nat
            /\ change_args (out (Console.restore_step m s)) = replicate k (name m, saved, 0).
Proof.
  intros Hsaved. rewrite console_restore_step_out, Hsaved. cbn zeta.
  destruct (Z.eqb _ DISP_CHANGE_SUCCESSFUL).
  - exists 1%nat. split; [lia | reflexivity].
  - exists 2%nat. split; [lia|]. destruct (Z.eqb _ DISP_CHANGE_SUCCESSFUL); reflexivity.
Qed.

Lemma console_disable_pass_of l (s : St W) :
  pass_of 1 (disable_targets l) (change_args (out (for_each Console.disable_step l s))).
Proof.
  revert s. induction l as [|m l IH]; intros s; [apply pass_of_nil|].
  rewrite for_each_cons, bind_out, change_args_app.
  destruct (console_disable_step_replicate m s) as (k & Hk & ->).
  apply (pass_of_cons 1 k); [exact Hk | apply IH].
Qed.

Lemma console_restore_pass_of l (s : St W) :
  pass_of 1 (restore_targets (monitor_settings s) l)
    (change_args (out (for_each Console.restore_step l s))).
Proof.
  revert s. induction l as [|m l IH]; intros s; [apply pass_of_nil|].
  rewrite for_each_cons, bind_out, change_args_app.
  specialize (IH (st (Console.restore_step m s))).
  rewrite (keeps_settings (Console.restore_step m)) in IH
    by (intros I HI; apply console_restore_step_keeps, HI).
  unfold restore_targets in *. cbn [flat_map].
  destruct (monitor_settings s !! name m) as [saved|] eqn:Hsaved.
  - destruct (console_restore_step_replicate m saved s Hsaved) as (k & Hk & ->).
    cbn [app]. apply (pass_of_cons 1 k); [exact Hk | exact IH].
  - rewrite console_restore_step_out, Hsaved. exact IH.
Qed.

(** From one round to all of them. *)
Section Rounds.
Variable c : controller W.
Variable retries : nat.
Variable secondaries : locals c -> St W -> list monitor.

Hypothesis round_passes : forall b l s,
  was_running c l = disabled_flag c l ->
  (if (b && negb (was_running c l))%bool then
     disable_pass_fired (out (step c b l s)) = true
     /\ restore_pass_fired (out (step c b l s)) = false
     /\ pass_of retries (disable_targets (secondaries l s))
          (change_args (out (step c b l s)))
   else if (negb b && was_running c l)%bool then
     disable_pass_fired (out (step c b l s)) = false
     /\ restore_pass_fired (out (step c b l s)) = true
     /\ pass_of retries (restore_targets (monitor_settings s) (secondaries l s))
          (change_args (out (step c b l s)))
   else
     disable_pass_fired (out (step c b l s)) = false
     /\ restore_pass_fired (out (step c b l s)) = false
     /\ change_args (out (step c b l s)) = [])
  /\ was_running c (val (step c b l s)) = b
  /\ disabled_flag c (val (step c b l s)) = b.

Lemma rounds_passes_on_edges samples l s :
  was_running c l = disabled_flag c l ->
  passes_on_edges retries (fun r => secondaries (locals_before r) (state_before r))
    (was_running c l) (rounds c samples l s).
Proof.
  revert l s. induction samples as [|b bs IH]; intros l s Hflag; [exact Logic.I|].
  destruct (round_passes b l s Hflag) as (Hround & Hwas & Hdis).
  cbn [rounds passes_on_edges sample events locals_before state_before].
  split; [exact Hround|].
  rewrite <- Hwas at 1. apply IH. congruence.
Qed.

End Rounds.

Lemma console_round_passes b l (s : St W) :
  Console.lol_was_running l = Console.monitors_disabled l ->
  (if (b && negb (Console.lol_was_running l))%bool then
     disable_pass_fired (out (Console.loop_body b l s)) = true
     /\ restore_pass_fired (out (Console.loop_body b l s)) = false
     /\ pass_of 1 (disable_targets (Console.secondary_monitors l))
          (change_args (out (Console.loop_body b l s)))
   else if (negb b && Console.lol_was_running l)%bool then
     disable_pass_fired (out (Console.loop_body b l s)) = false
     /\ restore_pass_fired (out (Console.loop_body b l s)) = true
     /\ pass_of 1 (restore_targets (monitor_settings s) (Console.secondary_monitors l))
          (change_args (out (Console.loop_body b l s)))
   else
     disable_pass_fired (out (Console.loop_body b l s)) = false
     /\ restore_pass_fired (out (Console.loop_body b l s)) = false
     /\ change_args (out (Console.loop_body b l s)) = [])
  /\ Console.lol_was_running (val (Console.loop_body b l s)) = b
  /\ Console.monitors_disabled (val (Console.loop_body b l s)) = b.
Proof.
  intros Hflag.
  destruct (console_edge_step b l s Hflag) as (Hd & Hr & _ & Hwas & Hdis).
  cbn [console locals step was_running disabled_flag] in Hd, Hr, Hwas, Hdis.
  split; [|split; assumption].
  destruct (console_round_args b l s) as (s1 & Hms & _ & Hargs).
  rewrite Hd, Hr, Hargs.
  destruct b, (Console.lol_was_running l); cbn [andb negb]; repeat split.
  - apply console_disable_pass_of.
  - rewrite <- Hms. apply console_restore_pass_of.
Qed.

Lemma gui_round_passes (target : string) b self (s : St W) :
  Gui.process_was_running self = Gui.monitors_disabled self ->
  (if (b && negb (Gui.process_was_running self))%bool then
     disable_pass_fired (out (Gui.loop_body b self s)) = true
     /\ restore_pass_fired (out (Gui.loop_body b self s)) = false
     /\ pass_of 0 (disable_targets (Gui.secondary_of (enumerate (world s))))
          (change_args (out (Gui.loop_body b self s)))
   else if (negb b && Gui.process_was_running self)%bool then
     disable_pass_fired (out (Gui.loop_body b self s)) = false
     /\ restore_pass_fired (out (Gui.loop_body b self s)) = true
     /\ pass_of 0 (restore_targets (monitor_settings s)
                     (Gui.secondary_of (enumerate (world s))))
          (change_args (out (Gui.loop_body b self s)))
   else
     disable_pass_fired (out (Gui.loop_body b self s)) = false
     /\ restore_pass_fired (out (Gui.loop_body b self s)) = false
     /\ change_args (out (Gui.loop_body b self s)) = [])
  /\ Gui.process_was_running (val (Gui.loop_body b self s)) = b
  /\ Gui.monitors_disabled (val (Gui.loop_body b self s)) = b.
Proof.
  intros Hflag.
  destruct (gui_edge_step target b self s Hflag) as (Hd & Hr & _ & Hwas & Hdis).
  cbn [gui locals step was_running disabled_flag] in Hd, Hr, Hwas, Hdis.
  split; [|split; assumption].
  rewrite Hd, Hr, gui_round_args.
  destruct b, (Gui.process_was_running self); cbn [andb negb]; repeat split;
    apply pass_of_exact.
Qed.

End EdgePasses.

(** C5: in both variants, started from any state, the loop rounds over any
    list of presence samples are edge triggered: a round runs a disable
    pass exactly when its sample is true and the previous one (false before
    the first) was false, a restore pass exactly when its sample is false
    and the previous one was true, and on a repeated sample it makes no
    mode-change call and leaves its variables alone; so the number of
    disable passes is the number of rising edges, and a run of true samples
    causes exactly one disable pass.  A pass is there with its calls: on a
    rising edge the round's mode-change calls are the disable call of each
    secondary display in order (each once, or twice in a row where the
    console retries), on a falling edge they are the restore call of each
    secondary display that has a snapshot entry, and otherwise there is
    none. *)
Theorem polling_is_edge_triggered `{OS W} :
  (forall samples (s : St W),
      let b := boot console s in
      edge_triggered Console.monitors_disabled false (rounds console samples (val b) (st b))
      /\ disable_passes (rounds console samples (val b) (st b)) = rising_edges false samples)
  /\ (forall target samples (s : St W),
      let b := boot (gui target) s in
      edge_triggered Gui.monitors_disabled false (rounds (gui target) samples (val b) (st b))
      /\ disable_passes (rounds (gui target) samples (val b) (st b))
         = rising_edges false samples)
  /\ (forall target n (s : St W),
      let b := boot console s in
      let b' := boot (gui target) s in
      disable_passes (rounds console (replicate (S n) true) (val b) (st b)) = 1%nat
      /\ disable_passes (rounds (gui target) (replicate (S n) true) (val b') (st b')) = 1%nat)
  /\ (forall samples (s : St W),
      let b := boot console s in
      passes_on_edges 1
        (fun r : round W Console.Locals => Console.secondary_monitors (locals_before r))
        false (rounds console samples (val b) (st b)))
  /\ (forall target samples (s : St W),
      let b := boot (gui target) s in
      passes_on_edges 0
        (fun r : round W Gui.MonitorThread =>
           Gui.secondary_of (enumerate (world (state_before r))))
        false (rounds (gui target) samples (val b) (st b))).
Proof.
  assert (Hconsole : forall samples (s : St W),
      let b := boot console s in
      edge_triggered Console.monitors_disabled false (rounds console samples (val b) (st b))
      /\ disable_passes (rounds console samples (val b) (st b)) = rising_edges false samples).
  { intros samples s. cbn zeta.
    destruct (console_startup_val s) as (_ & Hwas & Hdis).
    apply (rounds_from_idle console console_edge_step); assumption. }
  assert (Hgui : forall target samples (s : St W),
      let b := boot (gui target) s in
      edge_triggered Gui.monitors_disabled false (rounds (gui target) samples (val b) (st b))
      /\ disable_passes (rounds (gui target) samples (val b) (st b))
         = rising_edges false samples).
  { intros target samples s. cbn zeta.
    apply (rounds_from_idle (gui target) (gui_edge_step target)); reflexivity. }
  split; [exact Hconsole|]. split; [exact Hgui|]. split; [|split].
  - intros target n s. cbn zeta.
    rewrite (proj2 (Hconsole _ s)), (proj2 (Hgui target _ s)).
    cbn [replicate rising_edges andb negb]. now rewrite rising_edges_steady.
  - intros samples s. cbn zeta.
    destruct (console_startup_val s) as (_ & Hwas & Hdis).
    pose proof (rounds_passes_on_edges console 1
                  (fun l _ => Console.secondary_monitors l)
                  console_round_passes samples (val (boot console s))
                  (st (boot console s))) as Hrounds.
    cbn [console boot was_running disabled_flag locals] in Hrounds |- *.
    rewrite Hwas in Hrounds. apply Hrounds. now rewrite Hdis.
  - intros target samples s. cbn zeta.
    apply (rounds_passes_on_edges (gui target) 0
             (fun _ s0 => Gui.secondary_of (enumerate (world s0)))
             (gui_round_passes target) samples (Gui.init target)).
    reflexivity.
Qed.




(** * Further properties of the code *)

(** ** The enumerator *)

Section Listing.
Context {W : Type} `{OS W}.

Lemma get_all_monitors_loop_listing (w : W) fuel i acc :
  (length (display_devices w) - i < fuel)%nat ->
  get_all_monitors_loop fuel w i acc
  = acc ++ listing w i (drop i (display_devices w)).
Proof.
  revert i acc. induction fuel as [|fuel IH]; intros i acc Hlt; [lia|].
  cbn [get_all_monitors_loop]. unfold EnumDisplayDevices.
  destruct (display_devices w !! i) as [device|] eqn:Hdev.
  - rewrite (drop_S _ _ _ Hdev). cbn [listing].
    apply lookup_lt_Some in Hdev.
    rewrite IH by lia. rewrite app_assoc. f_equal. f_equal.
    unfold monitor_of, EnumDisplaySettings.
    destruct (Z.eqb (Z.land (StateFlags device) 1) 0); [now rewrite app_nil_r|].
    destruct (display_settings w (DeviceName device)); [reflexivity | now rewrite app_nil_r].
  - apply lookup_ge_None in Hdev. rewrite drop_ge by exact Hdev.
    cbn [listing]. now rewrite app_nil_r.
Qed.

Lemma enumerate_listing (w : W) : enumerate w = listing w 0 (display_devices w).
Proof.
  unfold enumerate. rewrite get_all_monitors_loop_listing by lia. reflexivity.
Qed.

Lemma monitor_of_spec (w : W) i d m :
  m ∈ monitor_of w i d
  <-> index m = i
      /\ Z.land (StateFlags d) 1 <> 0
      /\ display_settings w (DeviceName d) = Some (settings m)
      /\ name m = DeviceName d
      /\ description m = DeviceString d
      /\ is_primary m = negb (Z.eqb (Z.land (StateFlags d) 4) 0).
Proof.
  unfold monitor_of.
  destruct (Z.eqb_spec (Z.land (StateFlags d) 1) 0) as [Hzero|Hattached].
  - split; [intros Hin; inversion Hin | intros (_ & Hne & _); contradiction].
  - destruct (display_settings w (DeviceName d)) as [devmode|].
    + rewrite list_elem_of_singleton. split.
      * intros ->. cbn. auto 10.
      * intros (Hi & _ & Hmode & Hname & Hdesc & Hprim). destruct m as [i' n' d' s' p'].
        cbn in *. congruence.
    + split; [intros Hin; inversion Hin | intros (_ & _ & Hmode & _); discriminate].
Qed.

Lemma listing_elem (w : W) i devs m :
  m ∈ listing w i devs
  <-> exists j d, devs !! j = Some d /\ index m = (i + j)%nat /\ m ∈ monitor_of w (i + j) d.
Proof.
  revert i. induction devs as [|d devs IH]; intros i; cbn [listing].
  - split; [intros Hin; inversion Hin | intros (j & d & Hj & _); discriminate].
  - rewrite elem_of_app, IH. split.
    + intros [Hm | (j & d' & Hj & Hidx & Hm)].
      * exists 0%nat, d. rewrite Nat.add_0_r. repeat split; try assumption.
        now apply monitor_of_spec in Hm.
      * exists (S j), d'. rewrite <- Nat.add_succ_comm. auto.
    + intros (j & d' & Hj & Hidx & Hm). destruct j as [|j].
      * left. rewrite Nat.add_0_r in Hm. cbn in Hj. congruence.
      * right. exists j, d'. rewrite Nat.add_succ_comm. auto.
Qed.

Lemma listing_indices (w : W) i devs :
  StronglySorted lt (map index (listing w i devs))
  /\ Forall (fun k => i <= k < i + length devs)%nat (map index (listing w i devs)).
Proof.
  revert i. induction devs as [|d devs IH]; intros i; cbn [listing].
  - split; constructor.
  - destruct (IH (S i)) as [Hsorted Hrange].
    assert (Hrest : Forall (fun k => i < k < i + S (length devs))%nat
                      (map index (listing w (S i) devs))).
    { eapply Forall_impl; [exact Hrange|]. cbn beta. intros k Hk. lia. }
    assert (Hhead : monitor_of w i d = []
                    \/ exists m, monitor_of w i d = [m] /\ index m = i).
    { unfold monitor_of. destruct (Z.eqb _ 0); [now left|].
      destruct (display_settings w (DeviceName d)); [right; eauto | now left]. }
    destruct Hhead as [-> | (m & -> & Hm)]; cbn [app map length].
    + split; [exact Hsorted|]. eapply Forall_impl; [exact Hrest|]. cbn beta. lia.
    + split.
      * constructor; [exact Hsorted|]. rewrite Hm.
        eapply Forall_impl; [exact Hrest|]. cbn beta. lia.
      * constructor; [lia|]. eapply Forall_impl; [exact Hrest|]. cbn beta. lia.
Qed.

Lemma listing_length (w : W) i devs : (length (listing w i devs) <= length devs)%nat.
Proof.
  revert i. induction devs as [|d devs IH]; intros i; cbn [listing length]; [lia|].
  rewrite length_app. specialize (IH (S i)).
  assert (length (monitor_of w i d) <= 1)%nat; [|lia].
  unfold monitor_of. destruct (Z.eqb _ 0); [cbn; lia|].
  destruct (display_settings w (DeviceName d)); cbn; lia.
Qed.

End Listing.

(** X1: [get_all_monitors] lists exactly the displays that are attached to
    the desktop and whose current mode can be read: a dict is in the
    result if and only if the device table has, at the dict's index, an
    attached device with that name and description whose mode query
    succeeds with the dict's settings, and [is_primary] is the device's
    primary flag.  A detached device, or one whose mode query fails, is
    skipped and the enumeration goes on. *)
Theorem get_all_monitors_lists_attached_readable `{OS W} (w : W) (m : monitor) :
  m ∈ enumerate w
  <-> exists d,
        display_devices w !! index m = Some d
        /\ Z.land (StateFlags d) 1 <> 0
        /\ display_settings w (DeviceName d) = Some (settings m)
        /\ name m = DeviceName d
        /\ description m = DeviceString d
        /\ is_primary m = negb (Z.eqb (Z.land (StateFlags d) 4) 0).
Proof.
  rewrite enumerate_listing, listing_elem. split.
  - intros (j & d & Hj & Hidx & Hm). exists d. cbn [Nat.add] in *.
    rewrite Hidx. split; [exact Hj|]. apply monitor_of_spec in Hm. tauto.
  - intros (d & Hd & Hrest). exists (index m), d. cbn [Nat.add].
    split; [exact Hd|]. split; [reflexivity|]. apply monitor_of_spec. tauto.
Qed.

(** X2: the result of [get_all_monitors] is in device-index order without
    repetition: the indices of the listed monitors are strictly
    increasing, each is an index of the device table, and the list is no
    longer than the table. *)
Theorem get_all_monitors_in_index_order `{OS W} (w : W) :
  StronglySorted lt (map index (enumerate w))
  /\ Forall (fun k => k < length (display_devices w))%nat (map index (enumerate w))
  /\ (length (enumerate w) <= length (display_devices w))%nat.
Proof.
  rewrite enumerate_listing.
  destruct (listing_indices w 0 (display_devices w)) as [Hsorted Hrange].
  split; [exact Hsorted|]. split; [|apply listing_length].
  eapply Forall_impl; [exact Hrange|]. cbn beta. intros k Hk. lia.
Qed.

(** ** The presence detector *)

Section Detector.
Context {W : Type} `{OS W}.

Lemma exe_matches_spec (path : string) (exe : option string) :
  exe_matches path exe = true
  <-> exists e, exe = Some e /\ e <> EmptyString /\ lower e = lower path.
Proof.
  unfold exe_matches. destruct exe as [[|c e]|].
  - split; [discriminate | intros (e & [= <-] & Hne & _); contradiction].
  - rewrite String.eqb_eq. split.
    + intros Heq. exists (String c e). auto.
    + intros (e' & [= <-] & _ & Heq). exact Heq.
  - split; [discriminate | intros (e & Hsome & _); discriminate].
Qed.

Lemma existsb_agree {A} (f g : A -> bool) (l : list A) :
  (forall x, f x = g x) -> existsb f l = existsb g l.
Proof.
  intros Hfg. induction l as [|x l IH]; [reflexivity|].
  cbn [existsb]. now rewrite Hfg, IH.
Qed.

Lemma exe_matches_lower (p q : string) (exe : option string) :
  lower p = lower q -> exe_matches p exe = exe_matches q exe.
Proof. intros Hpq. unfold exe_matches. destruct exe as [[|c e]|]; now rewrite ?Hpq. Qed.

Lemma gui_idle_round (self : Gui.MonitorThread) (s : St W) :
  Gui.running self = true ->
  Gui.process_was_running self = false ->
  val (Gui.is_target_running self s) = false ->
  Gui.loop_round self s
  = mkRes self (mkSt (after_sleep (world s) (2 # 1)) (monitor_settings s)) [SleepCall (2 # 1)].
Proof.
  intros Hrun Hwas Hsample. unfold Gui.loop_round. rewrite Hrun.
  unfold bind at 1. cbn [Gui.is_target_running val st out app] in *. rewrite Hsample.
  unfold Gui.loop_body. rewrite Hwas. reflexivity.
Qed.

End Detector.

(** X3: [is_target_running] is true exactly when a target path is set and
    some process has a readable, non-empty executable path equal to the
    target up to [lower]; processes whose path cannot be read are passed
    over. *)
Theorem is_target_running_spec `{OS W} (self : Gui.MonitorThread) (s : St W) :
  val (Gui.is_target_running self s) = true
  <-> Gui.target_exe_path self <> EmptyString
      /\ exists e, Some e ∈ process_exes (world s)
                   /\ e <> EmptyString
                   /\ lower e = lower (Gui.target_exe_path self).
Proof.
  cbn [Gui.is_target_running val].
  destruct (Gui.target_exe_path self) as [|c target] eqn:Htarget.
  - split; [discriminate | intros [Hne _]; contradiction].
  - rewrite existsb_exists. split.
    + intros (exe & Hin & Hmatch). split; [discriminate|].
      apply exe_matches_spec in Hmatch as (e & -> & Hne & Hlow).
      exists e. rewrite list_elem_of_In. auto.
    + intros (_ & e & Hin & Hne & Hlow). exists (Some e).
      rewrite <- list_elem_of_In. split; [exact Hin|].
      apply exe_matches_spec. eauto.
Qed.

(** X4: detection is case-insensitive in the target: two non-empty target
    paths that are equal up to [lower] give the same answer in every world,
    and a tray application whose target equals the console's hard-coded
    path up to [lower] answers as [is_lol_running] does. *)
Theorem detection_ignores_case `{OS W} (p q : string) (s : St W) :
  p <> EmptyString ->
  q <> EmptyString ->
  lower p = lower q ->
  val (Gui.is_target_running (Gui.init p) s) = val (Gui.is_target_running (Gui.init q) s)
  /\ (lower p = lower Console.lol_exe ->
      val (Gui.is_target_running (Gui.init p) s) = val (Console.is_lol_running s)).
Proof.
  intros Hp Hq Hpq. cbn [Gui.is_target_running Console.is_lol_running Gui.init
    Gui.target_exe_path val].
  destruct p as [|cp p]; [contradiction|]. destruct q as [|cq q]; [contradiction|].
  split.
  - apply existsb_agree. intros exe. apply exe_matches_lower, Hpq.
  - intros Hlol. apply existsb_agree. intros exe. apply exe_matches_lower, Hlol.
Qed.

Lemma detection_ignores_case_witness :
  val (Gui.is_target_running
         (Gui.init "C:\Riot Games\League of Legends\Game\League of Legends.exe")
         (fresh (Sim.mkWorld Sim.three_screens_playing [] [])))
  = val (Console.is_lol_running (fresh (Sim.mkWorld Sim.three_screens_playing [] []))).
Proof.
  refine (proj2 (detection_ignores_case
                   "C:\Riot Games\League of Legends\Game\League of Legends.exe"
                   "c:\riot games\league of legends\game\LEAGUE OF LEGENDS.EXE"
                   (fresh (Sim.mkWorld Sim.three_screens_playing [] [])) _ _ _) _).
  - discriminate.
  - discriminate.
  - vm_compute. reflexivity.
  - vm_compute. reflexivity.
Defined.

(** X5: with no target path set, the tray application's loop never
    detects anything: whatever processes run and whatever the displays do,
    [n] rounds of [run] do nothing but sleep 2 s each, make no mode-change
    call and leave the thread's attributes as [__init__] set them. *)
Theorem unset_target_stays_idle `{OS W} (n : nat) (s : St W) :
  out (run_loop Gui.loop_round n (Gui.init EmptyString) s) = replicate n (SleepCall (2 # 1))
  /\ val (run_loop Gui.loop_round n (Gui.init EmptyString) s) = Gui.init EmptyString
  /\ monitor_settings (st (run_loop Gui.loop_round n (Gui.init EmptyString) s))
     = monitor_settings s.
Proof.
  revert s. induction n as [|n IH]; intros s; [repeat split|].
  cbn [run_loop replicate]. rewrite bind_out, bind_val, bind_st.
  rewrite (gui_idle_round (Gui.init EmptyString) s) by reflexivity.
  cbn [val st out app].
  destruct (IH (mkSt (after_sleep (world s) (2 # 1)) (monitor_settings s))) as (-> & -> & ->).
  repeat split.
Qed.

(** X6: [stop] ends the loop: it clears [running] and leaves the other
    attributes alone, and from then on any number of passes through
    [while self.running] does nothing at all. *)
Theorem stop_ends_the_loop `{OS W} (n : nat) (self : Gui.MonitorThread) (s s' : St W) :
  let stopped := val (Gui.stop self s) in
  Gui.running stopped = false
  /\ Gui.target_exe_path stopped = Gui.target_exe_path self
  /\ Gui.process_was_running stopped = Gui.process_was_running self
  /\ Gui.monitors_disabled stopped = Gui.monitors_disabled self
  /\ run_loop Gui.loop_round n stopped s' = mkRes stopped s' [].
Proof.
  cbn zeta.
  assert (Hval : val (Gui.stop self s)
                 = Gui.mkThread (Gui.target_exe_path self) false
                     (Gui.process_was_running self) (Gui.monitors_disabled self)).
  { unfold Gui.stop. rewrite bind_val. reflexivity. }
  rewrite Hval. cbn [Gui.running Gui.target_exe_path Gui.process_was_running
    Gui.monitors_disabled].
  repeat split.
  set (stopped := Gui.mkThread (Gui.target_exe_path self) false
                    (Gui.process_was_running self) (Gui.monitors_disabled self)).
  assert (Hround : forall s0 : St W, Gui.loop_round stopped s0 = mkRes stopped s0 []).
  { reflexivity. }
  revert s'. induction n as [|n IH]; intros s'; [reflexivity|].
  cbn [run_loop]. unfold bind. rewrite Hround. cbn [val st out app].
  rewrite IH. reflexivity.
Qed.

(** ** What a whole session may call *)

Section SessionCalls.
Context {W : Type} `{OS W}.

Lemma pass_calls_forall (body : monitor -> M W unit)
    (Q : gmap string DEVMODE -> monitor -> string * DEVMODE * Z -> Prop) :
  (forall m s, Forall (Q (monitor_settings s) m) (change_args (out (body m s)))) ->
  (forall m s, monitor_settings (st (body m s)) = monitor_settings s) ->
  forall l s,
    Forall (fun a => exists m, m ∈ l /\ Q (monitor_settings s) m a)
      (change_args (out (for_each body l s))).
Proof.
  intros Hbody Hkeep. induction l as [|m l IH]; intros s; [constructor|].
  rewrite for_each_cons, bind_out, change_args_app. apply Forall_app. split.
  - eapply Forall_impl; [apply Hbody|]. cbn beta. intros a Ha.
    exists m. split; [left | exact Ha].
  - eapply Forall_impl; [apply IH|]. cbn beta. intros a (m' & Hin & Ha).
    rewrite Hkeep in Ha. exists m'. split; [right; exact Hin | exact Ha].
Qed.

Lemma console_disable_step_calls_for m (s : St W) :
  Forall (fun a => a = (name m, disable_devmode, 0))
    (change_args (out (Console.disable_step m s))).
Proof.
  rewrite console_disable_step_out. cbn zeta.
  repeat (destruct (Z.eqb _ DISP_CHANGE_SUCCESSFUL)); cbn; repeat constructor.
Qed.

Lemma console_restore_step_calls_for m (s : St W) :
  Forall (fun a => exists saved, monitor_settings s !! name m = Some saved
                                 /\ a = (name m, saved, 0))
    (change_args (out (Console.restore_step m s))).
Proof.
  rewrite console_restore_step_out.
  destruct (monitor_settings s !! name m) as [saved|]; [|constructor]. cbn zeta.
  repeat (destruct (Z.eqb _ DISP_CHANGE_SUCCESSFUL)); cbn; repeat constructor; eauto.
Qed.


Lemma restore_targets_in_order ms (l : list monitor) :
  Forall (session_call ms l) (restore_targets ms l).
Proof.
  unfold restore_targets. rewrite Forall_forall. intros a Ha.
  apply list_elem_of_In, in_flat_map in Ha as (m & Hm & Ha).
  apply list_elem_of_In in Hm, Ha.
  destruct (ms !! name m) as [saved|] eqn:Hsaved; [|inversion Ha].
  apply list_elem_of_singleton in Ha as ->. exists m. eauto.
Qed.

Lemma console_round_in_order b l (s : St W) :
  Forall (session_call (monitor_settings s) (Console.secondary_monitors l))
    (change_args (out (Console.loop_body b l s))).
Proof.
  destruct (console_round_args b l s) as (s1 & Hms & _ & ->).
  destruct (b && negb (Console.lol_was_running l))%bool;
    [| destruct (negb b && Console.lol_was_running l)%bool; [|constructor]].
  - eapply Forall_impl.
    + apply (pass_calls_forall Console.disable_step
               (fun _ m a => a = (name m, disable_devmode, 0))).
      * apply console_disable_step_calls_for.
      * intros m. apply keeps_settings. intros I HI. apply console_disable_step_keeps, HI.
    + cbn beta. intros a (m & Hm & Ha). exists m. auto.
  - eapply Forall_impl.
    + apply (pass_calls_forall Console.restore_step
               (fun ms m a => exists saved, ms !! name m = Some saved
                                            /\ a = (name m, saved, 0))).
      * apply console_restore_step_calls_for.
      * intros m. apply keeps_settings. intros I HI. apply console_restore_step_keeps, HI.
    + cbn beta. intros a (m & Hm & Ha). rewrite Hms in Ha. exists m. auto.
Qed.


(** From rounds and shutdown to the loop followed by shutdown. *)
Lemma poll_then_shutdown_forall (c : controller W) (inv : locals c -> St W -> Prop)
    (P : string * DEVMODE * Z -> Prop) :
  (forall b l s, inv l s ->
     Forall P (change_args (out (step c b l s)))
     /\ inv (val (step c b l s)) (st (step c b l s))) ->
  (forall l s, inv l s -> Forall P (change_args (out (shutdown c l s)))) ->
  forall samples l s,
    inv l s ->
    Forall P (change_args (out ((l' <- poll c samples l ;; shutdown c l') s))).
Proof.
  intros Hstep Hshutdown. induction samples as [|b bs IH]; intros l s Hinv.
  - rewrite bind_out. cbn [poll ret val st out app]. apply Hshutdown, Hinv.
  - destruct (Hstep b l s Hinv) as [Hcalls Hinv'].
    specialize (IH _ _ Hinv').
    rewrite bind_out, change_args_app in IH |- *. cbn [poll].
    rewrite bind_out, bind_val, bind_st, !change_args_app, <- app_assoc.
    apply Forall_app. split; [exact Hcalls | exact IH].
Qed.

Lemma console_session_in_order samples (w : W) :
  Forall (session_call (captured w ∅) (Gui.secondary_of (enumerate w)))
    (change_args (out (session console samples (fresh w)))).
Proof.
  unfold session. rewrite bind_out, change_args_app. cbn [console boot].
  rewrite console_startup_silent. cbn [app].
  destruct (console_startup_val (fresh w)) as (Hsec & _ & _).
  apply (poll_then_shutdown_forall console
           (fun l s => monitor_settings s = captured w ∅
                       /\ Console.secondary_monitors l = Gui.secondary_of (enumerate w))).
  - intros b l s [Hms Hl]. cbn [console locals step] in *. split.
    + rewrite <- Hms, <- Hl. apply console_round_in_order.
    + split.
      * rewrite <- Hms. apply keeps_settings. intros I HI.
        apply console_loop_body_keeps, HI.
      * rewrite console_step_secondary. exact Hl.
  - intros l s [Hms Hl]. cbn [console locals shutdown] in *.
    rewrite console_interrupt_args, Hms, Hl.
    destruct (Console.monitors_disabled l); [apply restore_targets_in_order | constructor].
  - split; [now rewrite console_startup_state | exact Hsec].
Qed.


End SessionCalls.

Lemma no_call_in_order (ms : gmap string DEVMODE) (l : list (string * DEVMODE * Z)) :
  Forall (session_call ms []) l -> l = [].
Proof.
  destruct l as [|a l]; [reflexivity|]. intros Hall.
  apply Forall_cons in Hall as [(m & Hm & _) _]. inversion Hm.
Qed.


(** X7: in a whole console session (start-up, any number of loop rounds,
    the interrupt handler), whatever the OS answers, every mode-change
    call names a display that was listed as non-primary at start-up, has
    flags 0, and passes either the zero-size mode of [disable_monitor] or
    the mode captured for that display at start-up.  In particular, when
    start-up finds no non-primary display the session makes no mode-change
    call at all. *)
Theorem console_session_calls_in_order `{OS W} (samples : list bool) (w : W) :
  Forall (session_call (captured w ∅) (Gui.secondary_of (enumerate w)))
    (change_args (out (session console samples (fresh w))))
  /\ (Gui.secondary_of (enumerate w) = [] ->
      change_args (out (session console samples (fresh w))) = []).
Proof.
  pose proof (console_session_in_order samples w) as Hcalls.
  split; [exact Hcalls|].
  intros Hnone. rewrite Hnone in Hcalls.
  apply (no_call_in_order _ _ Hcalls).
Qed.

Lemma console_session_calls_in_order_witness :
  change_args (out (session console [true; false; true] (fresh Sim.laptop_only))) = [].
Proof.
  apply (proj2 (console_session_calls_in_order [true; false; true] Sim.laptop_only)).
  vm_compute. reflexivity.
Defined.



(** ** Shutdown after the loop *)

Section LastSample.
Context {W : Type} `{OS W}.

Lemma last_cons_default (b d : bool) (bs : list bool) :
  List.last (b :: bs) d = List.last bs b.
Proof.
  revert b d. induction bs as [|c bs IH]; intros b d; [reflexivity|].
  change (List.last (b :: c :: bs) d) with (List.last (c :: bs) d).
  rewrite !IH. reflexivity.
Qed.

Lemma poll_flags (c : controller W) :
  edge_step c ->
  forall samples l s,
    was_running c l = disabled_flag c l ->
    disabled_flag c (val (poll c samples l s)) = List.last samples (disabled_flag c l)
    /\ was_running c (val (poll c samples l s)) = List.last samples (was_running c l).
Proof.
  intros Hstep. induction samples as [|b bs IH]; intros l s Hflag; [split; reflexivity|].
  destruct (Hstep b l s Hflag) as (_ & _ & _ & Hwas & Hdis).
  cbn [poll]. rewrite !bind_val.
  destruct (IH (val (step c b l s)) (st (step c b l s))) as [-> ->]; [congruence|].
  rewrite Hdis, Hwas, !last_cons_default. split; reflexivity.
Qed.

End LastSample.

(** X9: after start-up and any number of completed loop rounds, the two
    state variables of each variant agree and hold the sample of the last
    completed round (false when there was none).  The shutdown path acts on
    these variables alone: run between rounds, or in whatever world during
    a later round that has not yet assigned them (the countdown and the
    pass come before the assignments), the console's interrupt handler and
    the tray application's [stop] make their restore calls if that sample
    was true and no mode-change call if it was false.  So an interrupt
    during the disable pass that follows a rising edge restores nothing. *)
Theorem shutdown_follows_last_sample `{OS W} :
  (forall samples (w : W),
      let b := Console.startup (fresh w) in
      let r := poll console samples (val b) (st b) in
      Console.monitors_disabled (val r) = List.last samples false
      /\ Console.lol_was_running (val r) = List.last samples false
      /\ change_args (out (Console.on_keyboard_interrupt (val r) (st r)))
         = (if List.last samples false
            then restore_targets (captured w ∅) (Gui.secondary_of (enumerate w))
            else [])
      /\ forall w' : W,
           change_args (out (Console.on_keyboard_interrupt (val r)
                               (mkSt w' (monitor_settings (st r)))))
           = if List.last samples false
             then restore_targets (captured w ∅) (Gui.secondary_of (enumerate w))
             else [])
  /\ (forall target samples (w : W),
      let b := Gui.startup target (fresh w) in
      let r := poll (gui target) samples (val b) (st b) in
      Gui.monitors_disabled (val r) = List.last samples false
      /\ Gui.process_was_running (val r) = List.last samples false
      /\ change_args (out (Gui.stop (val r) (st r)))
         = (if List.last samples false
            then restore_targets (captured w ∅)
                   (Gui.secondary_of (enumerate (world (st r))))
            else [])
      /\ forall w' : W,
           change_args (out (Gui.stop (val r) (mkSt w' (monitor_settings (st r)))))
           = if List.last samples false
             then restore_targets (captured w ∅) (Gui.secondary_of (enumerate w'))
             else []).
Proof.
  split.
  - intros samples w b r.
    destruct (console_startup_val (fresh w)) as (Hsec & Hwas & Hdis).
    destruct (poll_flags console console_edge_step samples (val b) (st b))
      as [Hflag Hlast].
    { subst b. cbn [console was_running disabled_flag]. congruence. }
    cbn [console was_running disabled_flag] in Hflag, Hlast. fold r in Hflag, Hlast.
    assert (Hms : monitor_settings (st r) = captured w ∅).
    { subst r. rewrite poll_console_settings. subst b. now rewrite console_startup_state. }
    assert (Hlist : Console.secondary_monitors (val r) = Gui.secondary_of (enumerate w)).
    { subst r. rewrite poll_console_secondary. subst b. exact Hsec. }
    subst b. rewrite Hdis in Hflag. rewrite Hwas in Hlast.
    split; [exact Hflag|]. split; [exact Hlast|].
    split.
    + rewrite console_interrupt_args, Hflag, Hms, Hlist. reflexivity.
    + intros w'. rewrite console_interrupt_args, Hflag, Hms, Hlist. reflexivity.
  - intros target samples w b r.
    destruct (poll_flags (gui target) (gui_edge_step target) samples (val b) (st b))
      as [Hflag Hlast]; [reflexivity|].
    cbn [gui was_running disabled_flag] in Hflag, Hlast. fold r in Hflag, Hlast.
    cbn [b Gui.startup bind ret val Gui.init Gui.monitors_disabled
      Gui.process_was_running] in Hflag, Hlast.
    assert (Hms : monitor_settings (st r) = captured w ∅).
    { subst r. rewrite poll_gui_settings. subst b. now rewrite gui_startup_state. }
    split; [exact Hflag|]. split; [exact Hlast|].
    split.
    + rewrite gui_stop_args, Hflag, Hms. reflexivity.
    + intros w'. rewrite gui_stop_args, Hflag, Hms. reflexivity.
Qed.

(** ** More on the baseline capture *)

(** X10: a baseline capture never removes an entry of [monitor_settings],
    does not touch the world, and capturing again in the world it left
    changes nothing; the console's and the tray application's
    [save_monitor_settings] leave the same map. *)
Theorem capture_is_monotone_and_idempotent `{OS W} (s : St W) :
  let once := Gui.save_monitor_settings s in
  let twice := Gui.save_monitor_settings (st once) in
  dom (monitor_settings s) ⊆ dom (monitor_settings (st once))
  /\ world (st once) = world s
  /\ monitor_settings (st twice) = monitor_settings (st once)
  /\ st (Console.save_monitor_settings s) = st once.
Proof.
  cbn zeta. rewrite !gui_save_state, console_save_state. cbn [world monitor_settings].
  split; [|split; [reflexivity | split; [|reflexivity]]].
  - intros key Hkey. apply elem_of_dom in Hkey. apply elem_of_dom.
    rewrite captured_lookup. case_decide as Hin; [|exact Hkey].
    rewrite <- (decide_True (display_settings (world s) key) (monitor_settings s !! key) Hin).
    rewrite <- captured_lookup. apply captured_dom, Hin.
  - apply map_eq. intros key. rewrite !captured_lookup.
    case_decide; reflexivity.
Qed.

(** ** The icon converter *)

(** X11: when [create_icon] crops, the box is the centred square whose
    side is the shorter dimension: its width and height are
    [min(width, height)], it lies inside the image, it is centred in both
    directions, and it keeps the shorter dimension whole; it crops exactly
    when the image is not square.  The box is (x0, y0, x1, y1): left, top,
    right, bottom. *)
Theorem crop_box_is_centred_square (width height : Z) :
  match crop_box width height with
  | None => width = height
  | Some (x0, y0, x1, y1) =>
      width <> height
      /\ (x1 - x0 == inject_Z (Z.min width height))%Q
      /\ (y1 - y0 == inject_Z (Z.min width height))%Q
      /\ (0 <= x0)%Q /\ (0 <= y0)%Q
      /\ (x1 <= inject_Z width)%Q /\ (y1 <= inject_Z height)%Q
      /\ (x0 + x1 == inject_Z width)%Q
      /\ (y0 + y1 == inject_Z height)%Q
      /\ (x0 == 0 \/ y0 == 0)%Q
  end.
Proof.
  unfold crop_box. destruct (Z.eqb_spec width height) as [Heq|Hne]; cbn [negb].
  - exact Heq.
  - split; [exact Hne|].
    destruct (Z.min_spec width height) as [[Hlt ->] | [Hle ->]];
      unfold Qeq, Qle, Qdiv, Qmult, Qinv, Qminus, Qplus, Qopp, inject_Z; cbn;
      repeat split; lia.
Qed.

(** ** What the console reports at start-up *)

Section StartupReport.
Context {W : Type} `{OS W}.

Lemma classify_out i monitors primary secondary (s : St W) :
  out (Console.classify i monitors primary secondary s)
  = imap (fun j m => Printed (MonitorLine (i + j + 1) (description m) (is_primary m)))
      monitors.
Proof.
  revert i primary secondary.
  induction monitors as [|m ms IH]; intros i primary secondary; [reflexivity|].
  cbn [Console.classify]. rewrite bind_out, imap_cons. cbn [print out st app].
  rewrite Nat.add_0_r. f_equal.
  assert (Hrest : forall p q,
             out (Console.classify (S i) ms p q s)
             = imap ((fun j m => Printed (MonitorLine (i + j + 1) (description m)
                                            (is_primary m))) ∘ S) ms).
  { intros p q. rewrite IH. apply imap_ext. intros j x _. cbn.
    do 2 f_equal. lia. }
  destruct (is_primary m); apply Hrest.
Qed.

Lemma classify_primary i monitors primary secondary (s : St W) :
  fst (val (Console.classify i monitors primary secondary s))
  = match last (List.filter is_primary monitors) with
    | Some m => Some m
    | None => primary
    end.
Proof.
  revert i primary secondary.
  induction monitors as [|m ms IH]; intros i primary secondary; [reflexivity|].
  cbn [Console.classify]. rewrite bind_val. cbn [print st val List.filter].
  destruct (is_primary m); rewrite IH; [|reflexivity].
  rewrite last_cons. destruct (last (List.filter is_primary ms)); reflexivity.
Qed.

Lemma foldl_insert_size (l : list monitor) (ms : gmap string DEVMODE) :
  (size (foldl (fun acc m => <[name m := settings m]> acc) ms l) <= size ms + length l)%nat.
Proof.
  revert ms. induction l as [|m l IH]; intros ms; cbn [foldl length]; [lia|].
  specialize (IH (<[name m := settings m]> ms)).
  rewrite map_size_insert in IH. destruct (ms !! name m); cbn in IH; lia.
Qed.

End StartupReport.

(** X12: the console's start-up makes no mode-change call and does not
    sleep; it prints the banner, the number of stored entries, the number
    of monitors found, one line per monitor numbered from 1 in enumeration
    order, a blank line, and the two warning lines exactly when no
    non-primary monitor was found.  The number of stored entries never
    exceeds the number of monitors found, and [primary_monitor] is the
    last monitor flagged primary, if any. *)
Theorem console_startup_report `{OS W} (w : W) :
  let found := enumerate w in
  let b := Console.startup (fresh w) in
  out b
  = [ Printed (Banner 1); Printed (Banner 2); Printed (Banner 3); Printed (Banner 4);
      Printed (SavedSettings (size (captured w ∅)));
      Printed (FoundMonitors (length found)) ]
    ++ imap (fun j m => Printed (MonitorLine (j + 1) (description m) (is_primary m))) found
    ++ [Printed BlankLine]
    ++ match Gui.secondary_of found with
       | [] => [Printed NoSecondaryWarning; Printed ContinuingAnyway]
       | _ :: _ => []
       end
  /\ (size (captured w ∅) <= length found)%nat
  /\ Console.primary_monitor (val b) = last (List.filter is_primary found)
  /\ world (st b) = w.
Proof.
  cbn zeta. split; [|split; [|split]].
  - unfold Console.startup. rewrite !bind_out, ?bind_st, ?bind_val.
    cbn [print out st val app]. rewrite console_save_out, ?console_save_state.
    cbn [get_all_monitors out st val app world monitor_settings fresh].
    rewrite classify_out, ?classify_state, classify_secondary. cbn [app Nat.add].
    do 6 f_equal.
    destruct (Gui.secondary_of (enumerate w)); reflexivity.
  - unfold captured. pose proof (foldl_insert_size (enumerate w) ∅) as Hsize.
    rewrite map_size_empty in Hsize. exact Hsize.
  - unfold Console.startup. rewrite !bind_val, ?bind_st. cbn [print st val].
    rewrite console_save_state. cbn [get_all_monitors st val world fresh].
    rewrite classify_state. cbn [ret val Console.primary_monitor].
    rewrite classify_primary. destruct (last _); reflexivity.
  - now rewrite console_startup_state.
Qed.

(** ** What the tray application can restore *)

(** X13: the tray application acts only on displays its enumeration of the
    moment lists as non-primary: a loop round and [stop] make no
    mode-change call for any other display, whether or not
    [monitor_settings] holds a mode for it.  So a display the OS no longer
    lists as attached is not restored by the tray application. *)
Theorem gui_acts_on_enumerated_only `{OS W} (b : bool) (self : Gui.MonitorThread)
    (s : St W) (n : string) :
  n ∉ names (Gui.secondary_of (enumerate (world s))) ->
  (n ∉ change_names (out (Gui.loop_body b self s)))
  /\ (n ∉ change_names (out (Gui.stop self s))).
Proof.
  intros Hout. unfold change_names. rewrite gui_round_args, gui_stop_args. split.
  - intros Hin. apply Hout.
    destruct (b && negb (Gui.process_was_running self))%bool.
    + now rewrite disable_targets_names in Hin.
    + destruct (negb b && Gui.process_was_running self)%bool; [|inversion Hin].
      apply restore_targets_within in Hin. exact Hin.
  - intros Hin. apply Hout.
    destruct (Gui.monitors_disabled self); [|inversion Hin].
    apply restore_targets_within in Hin. exact Hin.
Qed.

Lemma gui_acts_on_enumerated_only_witness :
  let s := mkSt Sim.laptop_only {[ Sim.DISPLAY2 := Sim.mode 2560 1440 ]} in
  let self := Gui.mkThread "game.exe" true true true in
  monitor_settings s !! Sim.DISPLAY2 = Some (Sim.mode 2560 1440)
  /\ (Sim.DISPLAY2 ∉ change_names (out (Gui.loop_body false self s)))
  /\ (Sim.DISPLAY2 ∉ change_names (out (Gui.stop self s))).
Proof.
  cbn zeta. split; [apply lookup_singleton_eq|].
  apply (gui_acts_on_enumerated_only false).
  assert (Hnone : names (Gui.secondary_of (enumerate Sim.laptop_only)) = []).
  { vm_compute. reflexivity. }
  cbn [world]. rewrite Hnone. apply not_elem_of_nil.
Defined.
